(** * paper-grade: the AIPaperGrader pipeline of [main.py]

    A shallow embedding of [AIPaperGrader] (objective metrics, rubric
    evaluation by a language model, report compilation, report printing)
    and the properties of its specification.

    Python values are a small dynamically typed universe ([value]); a
    method is a computation in the monad [M], which threads the trace of
    observable effects (lines printed, requests sent to the language
    model) and either returns or raises a Python exception. *)

From Stdlib Require Import ZArith NArith String Ascii List Bool Lia SpecFloat.
Import ListNotations.
Open Scope string_scope.
Open Scope list_scope.

Set Implicit Arguments.
Set Warnings "-register-all".

(** ** Strings

    A Python [str] is a sequence of Unicode code points.  String literals
    of the source are ASCII and are written as Rocq strings. *)

Definition codepoint := N.
Definition pystr := list codepoint.

Definition lit (s : string) : list N := map N_of_ascii (list_ascii_of_string s).
Coercion lit : string >-> list.

Definition pystr_eqb (a b : pystr) : bool :=
  if list_eq_dec N.eq_dec a b then true else false.

(** [s * n] *)
Definition str_mul (s : pystr) (n : nat) : pystr := concat (repeat s n).

Definition newline : pystr := [10%N].
Definition dquote : pystr := [34%N].
Definition quoted (s : pystr) : pystr := dquote ++ s ++ dquote.

(** [str.isspace] for one code point: the code points Python's
    [str.split()] treats as separators. *)
Definition isspace (c : codepoint) : bool :=
  ((9 <=? c) && (c <=? 13) || (28 <=? c) && (c <=? 32)
   || (c =? 133) || (c =? 160) || (c =? 5760)
   || (8192 <=? c) && (c <=? 8202)
   || (c =? 8232) || (c =? 8233) || (c =? 8239) || (c =? 8287)
   || (c =? 12288))%N.

Section Split.
Context {char : Type} (sep : char -> bool).

(** [str.split()] without arguments: runs of separators delimit the
    words, and no empty word is produced.  [cur] is the word being
    read, most recent character first. *)
Fixpoint split_from (cur : list char) (s : list char) : list (list char) :=
  match s with
  | [] => match cur with [] => [] | _ => [rev cur] end
  | c :: rest =>
      if sep c
      then match cur with
           | [] => split_from [] rest
           | _ => rev cur :: split_from [] rest
           end
      else split_from (c :: cur) rest
  end.

Definition split (s : list char) : list (list char) := split_from [] s.

(** The specification's reading of "whitespace-delimited tokens": a
    token starts at each character that is not a separator and that is
    the first character or follows a separator. *)
Fixpoint token_starts (after_sep : bool) (s : list char) : nat :=
  match s with
  | [] => 0
  | c :: rest =>
      if sep c then token_starts true rest
      else (if after_sep then 1 else 0) + token_starts false rest
  end.

Definition count_tokens (s : list char) : nat := token_starts true s.
End Split.

(** ** Values *)

Inductive value : Type :=
| VNone
| VBool (b : bool)
| VInt (z : Z)
| VFloat (f : spec_float)
| VStr (s : pystr)
| VList (items : list value)
| VDict (entries : list (pystr * value)).

(** The exceptions that occur, all subclasses of [Exception]. *)
Inductive exn : Type :=
| AttributeError (name : string)
| NameError (name : string)
| KeyError (key : pystr)
| TypeError
| ValueError
| OverflowError
| CollaboratorError (message : pystr).

Inductive result (A : Type) : Type :=
| Return (a : A)
| Raise (e : exn).
Arguments Return {A} a.
Arguments Raise {A} e.

(** A dict keeps its entries in insertion order, one entry per key. *)
Fixpoint lookup (k : pystr) (d : list (pystr * value)) : option value :=
  match d with
  | [] => None
  | (k', v) :: rest => if pystr_eqb k k' then Some v else lookup k rest
  end.

(** [v[k]] for a string key [k] *)
Definition getitem (v : value) (k : pystr) : result value :=
  match v with
  | VDict d => match lookup k d with Some x => Return x | None => Raise (KeyError k) end
  | _ => Raise TypeError
  end.

(** [v.get(k, default)] *)
Definition get (v : value) (k : pystr) (default : value) : result value :=
  match v with
  | VDict d => match lookup k d with Some x => Return x | None => Return default end
  | _ => Raise (AttributeError "get")
  end.

(** The items a [for] loop or a generator expression draws from [v]. *)
Definition iter (v : value) : result (list value) :=
  match v with
  | VList items => Return items
  | VDict d => Return (map (fun kv => VStr (fst kv)) d)
  | VStr s => Return (map (fun c => VStr [c]) s)
  | _ => Raise TypeError
  end.

(** Python floats are IEEE 754 binary64. *)
Definition float_add : spec_float -> spec_float -> spec_float := SFadd 53 1024.

Definition float_of_int (z : Z) : result spec_float :=
  match binary_normalize 53 1024 z 0 false with
  | S754_infinity _ => Raise OverflowError
  | f => Return f
  end.

Definition int_of_bool (b : bool) : Z := if b then 1%Z else 0%Z.

(** [a + b] *)
Definition py_add (a b : value) : result value :=
  let int_float (z : Z) (f : spec_float) (swap : bool) :=
    match float_of_int z with
    | Return g => Return (VFloat (if swap then float_add f g else float_add g f))
    | Raise e => Raise e
    end in
  match a, b with
  | VInt x, VInt y => Return (VInt (x + y))
  | VInt x, VBool y => Return (VInt (x + int_of_bool y))
  | VBool x, VInt y => Return (VInt (int_of_bool x + y))
  | VBool x, VBool y => Return (VInt (int_of_bool x + int_of_bool y))
  | VFloat x, VFloat y => Return (VFloat (float_add x y))
  | VInt x, VFloat y => int_float x y false
  | VBool x, VFloat y => int_float (int_of_bool x) y false
  | VFloat x, VInt y => int_float y x true
  | VFloat x, VBool y => int_float (int_of_bool y) x true
  | VStr x, VStr y => Return (VStr (x ++ y))
  | VList x, VList y => Return (VList (x ++ y))
  | _, _ => Raise TypeError
  end.

(** [sum(item.get(key, 0) for item in items)]: the generator is consumed
    one item at a time, each term is added to the running total, which
    starts at the int [0]. *)
Fixpoint sum_get_from (acc : value) (key : pystr) (items : list value) : result value :=
  match items with
  | [] => Return acc
  | item :: rest =>
      match get item key (VInt 0) with
      | Raise e => Raise e
      | Return term =>
          match py_add acc term with
          | Raise e => Raise e
          | Return acc' => sum_get_from acc' key rest
          end
      end
  end.

Definition sum_get (key : pystr) (seq : value) : result value :=
  match iter seq with
  | Raise e => Raise e
  | Return items => sum_get_from (VInt 0) key items
  end.

(** ** Effects *)

(** The language-model agent of the [deertick] package, as [__init__]
    constructs it: [Agent(model, system_prompt, provider)].  The
    constructor is taken to keep its arguments and to succeed. *)
Record Agent : Type := {
  agent_model : pystr;
  system_prompt : pystr;
  provider : pystr
}.

(** A grammar tool of [language_tool_python], for one language. *)
Record LanguageTool : Type := { language : pystr }.

(** One issue reported by the grammar tool; only their number is used. *)
Definition Match := pystr.

(** The keyword arguments of [client.chat.completions.create]. *)
Record chat_request : Type := {
  req_model : value;
  req_messages : value;
  req_response_format : value;
  req_temperature : value
}.

Inductive event : Type :=
| Stdout (line : pystr)
| AgentRequest (a : Agent) (system user : pystr)
| ChatCompletionRequest (r : chat_request).

Definition trace := list event.

(** A computation runs from the trace so far, extends it, and returns
    a value or raises. *)
Definition M (A : Type) : Type := trace -> result A * trace.

Definition ret {A} (a : A) : M A := fun tr => (Return a, tr).
Definition raise {A} (e : exn) : M A := fun tr => (Raise e, tr).
Definition bind {A B} (m : M A) (k : A -> M B) : M B :=
  fun tr =>
    match m tr with
    | (Return a, tr') => k a tr'
    | (Raise e, tr') => (Raise e, tr')
    end.
Definition lift {A} (r : result A) : M A := fun tr => (r, tr).
Definition emit (ev : event) : M unit := fun tr => (Return tt, tr ++ [ev]).

(** [try: body except Exception as e: handler e] *)
Definition try_except {A} (body : M A) (handler : exn -> M A) : M A :=
  fun tr =>
    match body tr with
    | (Return a, tr') => (Return a, tr')
    | (Raise e, tr') => handler e tr'
    end.

Declare Scope py_scope.
Delimit Scope py_scope with py.
Notation "x <- m ;; k" := (bind m (fun x => k))
  (at level 61, m at next level, right associativity) : py_scope.
Notation "m ;; k" := (bind m (fun _ => k))
  (at level 61, right associativity) : py_scope.
Open Scope py_scope.

(** [print(line)] *)
Definition print (line : pystr) : M unit := emit (Stdout line).

(** [for item in items: body item] *)
Fixpoint for_each {A} (items : list A) (body : A -> M unit) : M unit :=
  match items with
  | [] => ret tt
  | item :: rest => body item ;; for_each rest body
  end.

Definition outcome {A} (m : M A) (tr : trace) : result A := fst (m tr).
Definition effects {A} (m : M A) (tr : trace) : trace := snd (m tr).

(** The libraries and services the grader calls.  They are outside the
    program; each is a function of its arguments that returns or raises. *)
Class Collaborators : Type := {
  (** [language_tool_python.LanguageTool(language)] *)
  LanguageTool_new : pystr -> result LanguageTool;
  (** [tool.check(text)] *)
  LanguageTool_check : LanguageTool -> pystr -> result (list Match);
  (** [textstat.flesch_reading_ease(text)] *)
  flesch_reading_ease : pystr -> result spec_float;
  (** [agent.generate_response(system_prompt, user_prompt)] *)
  generate_response : Agent -> pystr -> pystr -> result pystr;
  (** [client.chat.completions.create(...).choices[0].message.content] *)
  chat_completions_create : chat_request -> result pystr;
  (** [json.dumps(v, indent=2)] *)
  json_dumps : value -> pystr;
  (** [json.loads(text)] *)
  json_loads : pystr -> result value;
  (** [repr(v)] *)
  repr : value -> pystr;
  (** [str(e)] for an exception [e] *)
  str_exn : exn -> pystr;
  (** [format(x, ".2f")] for a float [x] *)
  fixed2 : spec_float -> pystr
}.

(** ** The grader *)

(** An instance of [AIPaperGrader]: the attributes [__init__] assigns.
    [lang_tool] is [None] when the grammar tool is unavailable. *)
Record AIPaperGrader : Type := {
  agent : Agent;
  lang_tool : option LanguageTool
}.

Definition default_model : pystr := "OpenAI: GPT-4 Turbo".

Definition grader_system_prompt : pystr :=
  "You are an expert AI teaching assistant. Your task is to grade a student's paper based on a given assignment prompt and a detailed grading rubric. You must provide a score and constructive feedback for EACH criterion in the rubric. Your analysis must be objective and strictly adhere to the rubric's definitions.".

(** The f-string of [_evaluate_with_llm].  It occurs twice in the source,
    with two indentations: [ind] precedes each line that is not empty and
    [last] precedes the closing quotes. *)
Definition grading_prompt (ind last : pystr)
    (assignment_prompt rubric_str student_paper : pystr) : pystr :=
  let line (text : pystr) : pystr := ind ++ text ++ newline in
  newline
  ++ line "Please grade the following student paper."
  ++ newline
  ++ line "[ASSIGNMENT PROMPT]:"
  ++ line assignment_prompt
  ++ newline
  ++ line "[GRADING RUBRIC]:"
  ++ line rubric_str
  ++ newline
  ++ line "[STUDENT SUBMISSION]:"
  ++ line student_paper
  ++ newline
  ++ line "[YOUR TASK]:"
  ++ line "Evaluate the student's submission based STRICTLY on the provided rubric. For each criterion,"
  ++ line "provide a numerical score and detailed, constructive feedback explaining why you gave that score."
  ++ line "Your feedback should be helpful and guide the student on how to improve."
  ++ newline
  ++ line "Return your entire response as a single, valid JSON object. The JSON object should have two main keys:"
  ++ line ("1. " ++ quoted "summary_feedback"
           ++ ": A brief overall summary of the paper's strengths and weaknesses.")
  ++ line ("2. " ++ quoted "criteria_breakdown"
           ++ ": A list of objects, where each object represents a criterion from the rubric and contains:")
  ++ line ("   - " ++ quoted "criterion" ++ ": The name of the criterion (e.g., "
           ++ quoted "Clarity and Argument" ++ ").")
  ++ line ("   - " ++ quoted "score" ++ ": The score you awarded for this criterion.")
  ++ line ("   - " ++ quoted "max_score" ++ ": The maximum possible score for this criterion.")
  ++ line ("   - " ++ quoted "feedback" ++ ": Your detailed feedback for this specific criterion.")
  ++ newline
  ++ line "Do not include any text outside of the JSON object."
  ++ last.

(** The float literal [0.2]: the binary64 number nearest to 2/10. *)
Definition float_0_2 : spec_float := S754_finite false 7205759403792794 (-55).

(** The float 60.0, a plausible reading ease. *)
Definition float_60 : spec_float := S754_finite false 8444249301319680 (-47).

(** What [_evaluate_with_llm] returns from its [except] branch. *)
Definition degraded_evaluation : value :=
  VDict [("summary_feedback" : pystr,
          VStr "Error: Could not get evaluation from the AI model.");
         ("criteria_breakdown" : pystr, VList [])].

(** [self.name] for a name that neither [__init__] assigns nor the class
    defines: the attribute lookup raises.  [__init__] assigns [agent] and
    [lang_tool]; the class body defines its five methods and nothing
    else. *)
Definition undefined_attribute {A} (name : string) : M A :=
  raise (AttributeError name).

(** A name that is bound neither in the function (parameters and
    assigned variables) nor at module level (the imports, the class and
    the constants of the entry point). *)
Definition undefined_name {A} (name : string) : M A :=
  raise (NameError name).

Section Grader.
Context `{Collaborators}.

(** [str(v)] *)
Definition py_str (v : value) : pystr :=
  match v with
  | VStr s => s
  | _ => repr v
  end.

(** [format(v, ".2f")] *)
Definition format_2f (v : value) : result pystr :=
  let of_int (z : Z) :=
    match float_of_int z with
    | Return f => Return (fixed2 f)
    | Raise e => Raise e
    end in
  match v with
  | VFloat f => Return (fixed2 f)
  | VInt z => of_int z
  | VBool b => of_int (int_of_bool b)
  | VStr _ => Raise ValueError
  | _ => Raise TypeError
  end.

Definition __init__ (model : pystr) : M AIPaperGrader :=
  let the_agent :=
    {| agent_model := model;
       system_prompt := grader_system_prompt;
       provider := "openai" |} in
  tool <- try_except
            (t <- lift (LanguageTool_new "en-US") ;; ret (Some t))
            (fun e =>
               print ("Could not initialize language tool. Grammar checks will be skipped. Error: "
                      ++ str_exn e) ;;
               ret None) ;;
  ret {| agent := the_agent; lang_tool := tool |}.

(** [if self.lang_tool:] holds exactly when the attribute is not [None]:
    a [LanguageTool] object is true. *)
Definition _check_objective_metrics (self : AIPaperGrader) (paper_text : pystr)
  : M value :=
  let word_count := length (split isspace paper_text) in
  readability_score <- lift (flesch_reading_ease paper_text) ;;
  grammar_errors <-
    match lang_tool self with
    | Some tool =>
        matches <- lift (LanguageTool_check tool paper_text) ;;
        ret (length matches)
    | None => ret 0%nat
    end ;;
  ret (VDict [("word_count" : pystr, VInt (Z.of_nat word_count));
              ("readability_score_flesch" : pystr, VFloat readability_score);
              ("grammar_and_spelling_errors" : pystr, VInt (Z.of_nat grammar_errors))]).

(** The body of the [try] block of [_evaluate_with_llm]. *)
Definition evaluate_request (self : AIPaperGrader)
    (assignment_prompt rubric_str student_paper user_prompt : pystr) : M value :=
  let agent_prompt :=
    grading_prompt (str_mul " " 24) (str_mul " " 16)
                   assignment_prompt rubric_str student_paper in
  _ <- emit (AgentRequest (agent self) (system_prompt (agent self)) agent_prompt) ;;
  _ <- lift (generate_response (agent self) (system_prompt (agent self)) agent_prompt) ;;
  _ <- @undefined_attribute unit "client" ;;
  model <- undefined_attribute "model" ;;
  system_content <- undefined_name "system_prompt" ;;
  let request :=
    {| req_model := model;
       req_messages :=
         VList [VDict [("role" : pystr, VStr "system");
                       ("content" : pystr, system_content)];
                VDict [("role" : pystr, VStr "user");
                       ("content" : pystr, VStr user_prompt)]];
       req_response_format := VDict [("type" : pystr, VStr "json_object")];
       req_temperature := VFloat float_0_2 |} in
  _ <- emit (ChatCompletionRequest request) ;;
  content <- lift (chat_completions_create request) ;;
  llm_evaluation <- lift (json_loads content) ;;
  ret llm_evaluation.

Definition _evaluate_with_llm (self : AIPaperGrader)
    (assignment_prompt : pystr) (rubric : value) (student_paper : pystr) : M value :=
  let rubric_str := json_dumps rubric in
  let user_prompt :=
    grading_prompt (str_mul " " 8) (str_mul " " 8)
                   assignment_prompt rubric_str student_paper in
  try_except
    (evaluate_request self assignment_prompt rubric_str student_paper user_prompt)
    (fun e =>
       print ("An error occurred during LLM evaluation: " ++ str_exn e) ;;
       ret degraded_evaluation).

Section GradePaper.
(** [grade_paper] calls [self._evaluate_with_llm], which Python looks
    up on the instance when the call is made: the evaluation step is
    a parameter here, and [grade_paper] below instantiates it with
    the method of the class. *)
Variable evaluate_with_llm : pystr -> value -> pystr -> M value.

Definition grade_paper_with (self : AIPaperGrader)
    (assignment_prompt : pystr) (rubric : value) (student_paper : pystr) : M value :=
  print "1. Analyzing objective metrics..." ;;
  objective_results <- _check_objective_metrics self student_paper ;;
  print "2. Performing subjective evaluation with AI..." ;;
  llm_results <- evaluate_with_llm assignment_prompt rubric student_paper ;;
  breakdown <- lift (get llm_results "criteria_breakdown" (VList [])) ;;
  total_score <- lift (sum_get "score" breakdown) ;;
  criteria <- lift (get rubric "criteria" (VList [])) ;;
  max_total_score <- lift (sum_get "max_score" criteria) ;;
  print "3. Compiling final report..." ;;
  summary_feedback <- lift (get llm_results "summary_feedback" VNone) ;;
  criteria_breakdown <- lift (get llm_results "criteria_breakdown" VNone) ;;
  ret (VDict [("overall_score" : pystr, total_score);
              ("max_possible_score" : pystr, max_total_score);
              ("summary_feedback" : pystr, summary_feedback);
              ("criteria_breakdown" : pystr, criteria_breakdown);
              ("objective_metrics" : pystr, objective_results)]).
End GradePaper.

Definition grade_paper (self : AIPaperGrader) : pystr -> value -> pystr -> M value :=
  grade_paper_with (_evaluate_with_llm self) self.

(** The body of the loop of [print_report]. *)
Definition print_criterion (item : value) : M unit :=
  criterion <- lift (getitem item "criterion") ;;
  print (newline ++ "[" ++ py_str criterion ++ "]") ;;
  score <- lift (getitem item "score") ;;
  max_score <- lift (getitem item "max_score") ;;
  print ("  Score: " ++ py_str score ++ " / " ++ py_str max_score) ;;
  feedback <- lift (getitem item "feedback") ;;
  print ("  Feedback: " ++ py_str feedback).

Definition print_report (grade_report : value) : M unit :=
  print (newline ++ str_mul "=" 50) ;;
  print (str_mul " " 15 ++ "AI GRADING REPORT") ;;
  print (str_mul "=" 50 ++ newline) ;;
  overall_score <- lift (getitem grade_report "overall_score") ;;
  max_possible_score <- lift (getitem grade_report "max_possible_score") ;;
  print ("FINAL SCORE: " ++ py_str overall_score ++ " / "
         ++ py_str max_possible_score ++ newline) ;;
  print "--- Overall Summary ---" ;;
  summary <- lift (get grade_report "summary_feedback" (VStr "N/A")) ;;
  print (py_str summary) ;;
  print (newline ++ str_mul "-" 25 ++ newline) ;;
  print "--- Detailed Breakdown by Criterion ---" ;;
  breakdown <- lift (get grade_report "criteria_breakdown" (VList [])) ;;
  items <- lift (iter breakdown) ;;
  for_each items print_criterion ;;
  print (newline ++ str_mul "-" 25 ++ newline) ;;
  print "--- Objective Metrics ---" ;;
  metrics <- lift (get grade_report "objective_metrics" (VDict [])) ;;
  word_count <- lift (get metrics "word_count" VNone) ;;
  print ("  Word Count: " ++ py_str word_count) ;;
  readability <- lift (get metrics "readability_score_flesch" VNone) ;;
  readability_text <- lift (format_2f readability) ;;
  print ("  Flesch Reading Ease: " ++ readability_text ++ " (Higher is easier to read)") ;;
  grammar <- lift (get metrics "grammar_and_spelling_errors" VNone) ;;
  print ("  Grammar & Spelling Issues Found: " ++ py_str grammar) ;;
  print (newline ++ str_mul "=" 50).
End Grader.

(** ** The sample rubric of the entry point *)

Definition criterion_entry (name : pystr) (max_score : Z) (description : pystr) : value :=
  VDict [("criterion" : pystr, VStr name);
         ("max_score" : pystr, VInt max_score);
         ("description" : pystr, VStr description)].

Definition GRADING_RUBRIC : value :=
  VDict [("criteria" : pystr,
          VList [
            criterion_entry "Argument and Analysis" 40
              "Evaluates the clarity, depth, and coherence of the argument. Assesses discussion of both advantages and disadvantages.";
            criterion_entry "Use of Evidence" 30
              "Checks if the student provided specific, relevant examples for both advantages and disadvantages as required.";
            criterion_entry "Structure and Organization" 20
              "Assesses the logical flow of the essay, including introduction, body paragraphs, and conclusion.";
            criterion_entry "Clarity and Mechanics" 10
              "Evaluates grammar, spelling, punctuation, and overall readability. Adherence to word count."])].

(** ** The entry point *)

Definition ASSIGNMENT_PROMPT : pystr :=
  newline
  ++ "    Write a 300-500 word essay on the role of technology in modern education. " ++ newline
  ++ "    Discuss both the advantages and disadvantages, and provide at least one specific example " ++ newline
  ++ "    for each. Conclude with your own perspective on the future of educational technology." ++ newline
  ++ "    ".

Definition STUDENT_PAPER : pystr :=
  newline
  ++ "    Technology in Education Today" ++ newline
  ++ newline
  ++ "    The role of technology in education has become super important. It has changed how students learn and teachers teach. There are many good things about it, but also some bad things." ++ newline
  ++ newline
  ++ "    One major advantage is access to information. With the internet, students can find anything they want instantly. For example, a student studying history can watch documentaries or read original documents online, which is much better than just a textbook. This makes learning more engaging. Digital tools like interactive whiteboards and educational apps also make lessons more fun." ++ newline
  ++ newline
  ++ "    However, there are also disadvantages. The biggest one is the digital divide, where not all students have equal access to computers or reliable internet at home. This creates inequality. Another problem is the potential for distraction. When students use laptops in class, they might be tempted to go on social media instead of paying attention to the lesson. It's a real issue for classroom management." ++ newline
  ++ newline
  ++ "    In conclusion, I believe that technology is a powerful tool for education. The benefits, like access to resources, are huge. We need to work on solving the problems like the digital divide to make sure everyone can benefit. The future of education will definitely involve more technology, and it will probably be even more integrated into learning." ++ newline
  ++ "    ".

(** [isinstance(e, ValueError)].  [CollaboratorError] stands for an
    exception class of a collaborator's own, outside the built-in classes
    listed in [exn]. *)
Definition is_ValueError (e : exn) : bool :=
  match e with
  | ValueError => true
  | _ => false
  end.

Section EntryPoint.
Context `{Collaborators}.

(** What [__init__] prints. *)
Definition init_output : trace :=
  match LanguageTool_new "en-US" with
  | Return _ => []
  | Raise e =>
      [Stdout ("Could not initialize language tool. Grammar checks will be skipped. Error: "
               ++ str_exn e)]
  end.

(** The block under [if __name__ == '__main__':]. *)
Definition main : M unit :=
  try_except
    (grader <- __init__ default_model ;;
     final_grade_report <- grade_paper grader ASSIGNMENT_PROMPT GRADING_RUBRIC STUDENT_PAPER ;;
     print_report final_grade_report)
    (fun e =>
       if is_ValueError e
       then print (str_exn e)
       else print ("An unexpected error occurred: " ++ str_exn e)).
End EntryPoint.

(** ** Vocabulary of the specification *)

(** The int stored under [key] in a dict entry; an entry without the key
    counts for 0. *)
Definition int_field (key : pystr) (item : value) : Z :=
  match item with
  | VDict d => match lookup key d with Some (VInt z) => z | _ => 0%Z end
  | _ => 0%Z
  end.

(** The sum of the field [key] over the entries. *)
Definition field_total (key : pystr) (items : list value) : Z :=
  fold_right Z.add 0%Z (map (int_field key) items).

(** [item] is a dict whose [key], when present, holds an int. *)
Definition int_or_absent (key : pystr) (item : value) : bool :=
  match item with
  | VDict d => match lookup key d with Some (VInt _) | None => true | Some _ => false end
  | _ => false
  end.

Definition is_dict (v : value) : bool :=
  match v with VDict _ => true | _ => false end.

(** [item] is a dict that has the key. *)
Definition has_key (key : pystr) (item : value) : bool :=
  match item with
  | VDict d => match lookup key d with Some _ => true | None => false end
  | _ => false
  end.

(** The keys [print_report] reads from each entry of the breakdown. *)
Definition printed_keys : list pystr :=
  ["criterion" : pystr; "score" : pystr; "max_score" : pystr; "feedback" : pystr].

Definition has_printed_keys (item : value) : bool :=
  forallb (fun key => has_key key item) printed_keys.


(** A value [+] cannot add to a number. *)
Definition non_numeric (v : value) : bool :=
  match v with
  | VNone | VStr _ | VList _ | VDict _ => true
  | VBool _ | VInt _ | VFloat _ => false
  end.

(** A value [format(v, ".2f")] accepts without overflow. *)
Definition formats_as_float (v : value) : bool :=
  match v with
  | VFloat _ => true
  | VInt z => match float_of_int z with Return _ => true | Raise _ => false end
  | VBool _ => true
  | _ => false
  end.

Definition is_stdout (ev : event) : bool :=
  match ev with
  | Stdout _ => true
  | _ => false
  end.

(** The lines of a trace that were printed. *)
Definition printed (tr : trace) : list pystr :=
  flat_map (fun ev => match ev with Stdout line => [line] | _ => [] end) tr.

(** [m], started after [tr], ends with [r] and has appended [out]. *)
Definition runs {A} (m : M A) (tr : trace) (r : result A) (out : trace) : Prop :=
  m tr = (r, tr ++ out).

(** [m] only prints: from every trace it appends printed lines and
    nothing else, whether it returns or raises. *)
Definition quiet {A} (m : M A) : Prop :=
  forall tr, exists r out, runs m tr r out /\ forallb is_stdout out = true.

Section Availability.
Context `{Collaborators}.

(** The readability library and, when there is one, the grammar tool
    answer for [text]. *)
Definition metrics_available (self : AIPaperGrader) (text : pystr) : Prop :=
  (exists r, flesch_reading_ease text = Return r)
  /\ (forall tool, lang_tool self = Some tool ->
                   exists matches, LanguageTool_check tool text = Return matches).

(** The evaluation step answers [evaluation], whatever was printed
    before. *)
Definition evaluates_to (evaluate : pystr -> value -> pystr -> M value)
    (assignment_prompt : pystr) (rubric : value) (student_paper : pystr)
    (evaluation : value) : Prop :=
  forall tr, outcome (evaluate assignment_prompt rubric student_paper) tr = Return evaluation.
End Availability.

(** ** Sample collaborators *)

(** A JSON text the model may answer, and the object it denotes. *)
Definition sample_answer_text : pystr :=
  "{" ++ quoted "summary_feedback" ++ ": " ++ quoted "Good" ++ ", "
  ++ quoted "criteria_breakdown" ++ ": []}".

Definition sample_answer : value :=
  VDict [("summary_feedback" : pystr, VStr "Good");
         ("criteria_breakdown" : pystr, VList [])].

(** Every service answers: the grammar tool finds no issue, the model
    answers [sample_answer_text]. *)
Definition healthy : Collaborators := {|
  LanguageTool_new := fun lang => Return {| language := lang |};
  LanguageTool_check := fun _ _ => Return [];
  flesch_reading_ease := fun _ => Return float_60;
  generate_response := fun _ _ _ => Return sample_answer_text;
  chat_completions_create := fun _ => Return sample_answer_text;
  json_dumps := fun _ => "{}" : pystr;
  json_loads := fun text =>
    if pystr_eqb text sample_answer_text then Return sample_answer else Raise ValueError;
  repr := fun _ => "<object>" : pystr;
  str_exn := fun _ => "<exception>" : pystr;
  fixed2 := fun _ => "60.00" : pystr
|}.

(** The grammar tool cannot be started and the model cannot be reached. *)
Definition offline : Collaborators := {|
  LanguageTool_new := fun _ => Raise (CollaboratorError "no Java runtime");
  LanguageTool_check := fun _ _ => Raise (CollaboratorError "no Java runtime");
  flesch_reading_ease := fun _ => Return float_60;
  generate_response := fun _ _ _ => Raise (CollaboratorError "connection refused");
  chat_completions_create := fun _ => Raise (CollaboratorError "connection refused");
  json_dumps := fun _ => "{}" : pystr;
  json_loads := fun _ => Raise ValueError;
  repr := fun _ => "<object>" : pystr;
  str_exn := fun _ => "<exception>" : pystr;
  fixed2 := fun _ => "60.00" : pystr
|}.

Definition result_entry (name : pystr) (score max_score : Z) (feedback : pystr) : value :=
  VDict [("criterion" : pystr, VStr name);
         ("score" : pystr, VInt score);
         ("max_score" : pystr, VInt max_score);
         ("feedback" : pystr, VStr feedback)].

(** An evaluation of the sample rubric that awards 35, 25, 18 and 9. *)
Definition sample_evaluation : value :=
  VDict [("summary_feedback" : pystr, VStr "A solid essay.");
         ("criteria_breakdown" : pystr,
          VList [result_entry "Argument and Analysis" 35 40 "Clear.";
                 result_entry "Use of Evidence" 25 30 "Examples given.";
                 result_entry "Structure and Organization" 18 20 "Well organised.";
                 result_entry "Clarity and Mechanics" 9 10 "Few errors."])].

(** An evaluation whose only entry awards more than the maximum. *)
Definition excessive_evaluation : value :=
  VDict [("summary_feedback" : pystr, VStr "Outstanding.");
         ("criteria_breakdown" : pystr,
          VList [result_entry "Argument and Analysis" 50 40 "Beyond the scale."])].

(** An evaluation step that answers [evaluation] without any effect. *)
Definition answering (evaluation : value) : pystr -> value -> pystr -> M value :=
  fun _ _ _ => ret evaluation.

Definition sample_grader : AIPaperGrader :=
  {| agent := {| agent_model := default_model;
                 system_prompt := grader_system_prompt;
                 provider := "openai" |};
     lang_tool := None |}.

(** An evaluation of two criteria, the second entry without a score. *)
Definition partial_evaluation : value :=
  VDict [("summary_feedback" : pystr, VStr "Incomplete.");
         ("criteria_breakdown" : pystr,
          VList [result_entry "Argument and Analysis" 35 40 "Clear.";
                 VDict [("criterion" : pystr, VStr "Use of Evidence");
                        ("feedback" : pystr, VStr "Not assessed.")]])].


(** The readability library fails on every text. *)
Definition unreadable : Collaborators := {|
  LanguageTool_new := fun lang => Return {| language := lang |};
  LanguageTool_check := fun _ _ => Return [];
  flesch_reading_ease := fun _ => Raise (CollaboratorError "division by zero");
  generate_response := fun _ _ _ => Return sample_answer_text;
  chat_completions_create := fun _ => Return sample_answer_text;
  json_dumps := fun _ => "{}" : pystr;
  json_loads := fun _ => Raise ValueError;
  repr := fun _ => "<object>" : pystr;
  str_exn := fun _ => "<exception>" : pystr;
  fixed2 := fun _ => "60.00" : pystr
|}.

(** The grammar tool starts but fails when it checks a text. *)
Definition flaky : Collaborators := {|
  LanguageTool_new := fun lang => Return {| language := lang |};
  LanguageTool_check := fun _ _ => Raise (CollaboratorError "server stopped");
  flesch_reading_ease := fun _ => Return float_60;
  generate_response := fun _ _ _ => Return sample_answer_text;
  chat_completions_create := fun _ => Return sample_answer_text;
  json_dumps := fun _ => "{}" : pystr;
  json_loads := fun _ => Raise ValueError;
  repr := fun _ => "<object>" : pystr;
  str_exn := fun _ => "<exception>" : pystr;
  fixed2 := fun _ => "60.00" : pystr
|}.

(** A grader whose grammar tool started. *)
Definition equipped_grader : AIPaperGrader :=
  {| agent := {| agent_model := default_model;
                 system_prompt := grader_system_prompt;
                 provider := "openai" |};
     lang_tool := Some {| language := "en-US" |} |}.

(** An evaluation whose second entry carries its score as a string. *)
Definition quoted_score_evaluation : value :=
  VDict [("summary_feedback" : pystr, VStr "Mixed.");
         ("criteria_breakdown" : pystr,
          VList [result_entry "Argument and Analysis" 35 40 "Clear.";
                 VDict [("criterion" : pystr, VStr "Use of Evidence");
                        ("score" : pystr, VStr "25");
                        ("max_score" : pystr, VInt 30);
                        ("feedback" : pystr, VStr "Examples given.")];
                 result_entry "Clarity and Mechanics" 9 10 "Few errors."])].




(** * Properties *)

(** ** Splitting into words *)

Section SplitFacts.
Context {char : Type} (sep : char -> bool).

Lemma split_from_length (s cur : list char) :
  length (split_from sep cur s)
  = token_starts sep (match cur with [] => true | _ => false end) s
    + match cur with [] => 0 | _ => 1 end.
Proof.
  revert cur; induction s as [|c rest IH]; intros cur; simpl.
  - destruct cur; reflexivity.
  - destruct (sep c).
    + destruct cur; simpl; rewrite IH; simpl; lia.
    + rewrite IH; destruct cur; simpl; lia.
Qed.

Lemma split_length (s : list char) :
  length (split sep s) = count_tokens sep s.
Proof.
  unfold split, count_tokens. rewrite split_from_length. simpl. lia.
Qed.

(** The words are what is left of the text once the separators are
    removed. *)
Lemma split_from_concat (s cur : list char) :
  concat (split_from sep cur s)
  = rev cur ++ filter (fun c => negb (sep c)) s.
Proof.
  revert cur; induction s as [|c rest IH]; intros cur; simpl.
  - destruct cur; simpl; now rewrite ?app_nil_r.
  - destruct (sep c); simpl.
    + destruct cur; simpl; rewrite IH; reflexivity.
    + rewrite IH. simpl. now rewrite <- app_assoc.
Qed.

Lemma split_concat (s : list char) :
  concat (split sep s) = filter (fun c => negb (sep c)) s.
Proof. unfold split. now rewrite split_from_concat. Qed.

(** No word is empty and no word contains a separator. *)
Lemma split_from_words (s cur : list char) :
  forallb (fun c => negb (sep c)) cur = true ->
  Forall (fun w => w <> [] /\ forallb (fun c => negb (sep c)) w = true)
         (split_from sep cur s).
Proof.
  revert cur; induction s as [|c rest IH]; intros cur Hcur; simpl.
  - destruct cur as [|x cur']; constructor; [|constructor].
    split.
    + intro E. apply (f_equal (@length char)) in E.
      rewrite length_rev in E. discriminate.
    + rewrite forallb_forall in *. intros y Hy. apply Hcur.
      now apply in_rev.
  - destruct (sep c) eqn:Hc.
    + destruct cur as [|x cur'].
      * now apply IH.
      * constructor; [|now apply IH].
        split.
        -- intro E. apply (f_equal (@length char)) in E.
           rewrite length_rev in E. discriminate.
        -- rewrite forallb_forall in *. intros y Hy. apply Hcur.
           now apply in_rev.
    + apply IH. simpl. now rewrite Hc.
Qed.

Lemma split_words (s : list char) :
  Forall (fun w => w <> [] /\ forallb (fun c => negb (sep c)) w = true)
         (split sep s).
Proof. now apply split_from_words. Qed.
End SplitFacts.

(** ** Floats *)

Lemma float_0_2_nearest :
  float_of_int 2 = Return (S754_finite false 4503599627370496 (-51))
  /\ float_of_int 10 = Return (S754_finite false 5629499534213120 (-49))
  /\ float_0_2
     = SFdiv 53 1024 (S754_finite false 4503599627370496 (-51))
                     (S754_finite false 5629499534213120 (-49)).
Proof. repeat split; vm_compute; reflexivity. Qed.

Lemma float_60_of_int : float_of_int 60 = Return float_60.
Proof. vm_compute. reflexivity. Qed.

(** ** Dicts and sums *)

Lemma get_of_getitem (v : value) (key : pystr) (default x : value) :
  getitem v key = Return x -> get v key default = Return x.
Proof.
  destruct v; simpl; try discriminate.
  destruct (lookup key entries); [auto | discriminate].
Qed.

Lemma get_dict (d : list (pystr * value)) (key : pystr) (default : value) :
  get (VDict d) key default
  = Return match lookup key d with Some x => x | None => default end.
Proof. simpl. now destruct (lookup key d). Qed.

Lemma get_is_dict (v : value) (key : pystr) (default x : value) :
  get v key default = Return x -> is_dict v = true.
Proof. destruct v; simpl; try discriminate; reflexivity. Qed.

Lemma get_total (v : value) (key : pystr) (default : value) :
  is_dict v = true -> exists x, get v key default = Return x.
Proof.
  destruct v; simpl; try discriminate. intros _.
  destruct (lookup key entries); eauto.
Qed.

(** On entries whose field is an int or absent, Python's [sum] is the
    sum of the integers. *)
Lemma sum_get_from_ints (key : pystr) (items : list value) (acc : Z) :
  forallb (int_or_absent key) items = true ->
  sum_get_from (VInt acc) key items = Return (VInt (acc + field_total key items)).
Proof.
  revert acc; induction items as [|item rest IH]; intros acc Hall; simpl.
  - now rewrite Z.add_0_r.
  - simpl in Hall. apply andb_true_iff in Hall as [Hitem Hrest].
    unfold field_total in *; simpl.
    destruct item; simpl in Hitem; try discriminate.
    simpl. destruct (lookup key entries) as [[]|]; try discriminate; simpl;
      rewrite IH by assumption; f_equal; f_equal; lia.
Qed.

Lemma sum_get_ints (key : pystr) (items : list value) :
  forallb (int_or_absent key) items = true ->
  sum_get key (VList items) = Return (VInt (field_total key items)).
Proof. intros Hall. unfold sum_get; simpl. now rewrite sum_get_from_ints. Qed.

(** ** Running computations *)

Lemma bind_return {A B} (m : M A) (k : A -> M B) (tr tr' : trace) (a : A) :
  m tr = (Return a, tr') -> bind m k tr = k a tr'.
Proof. intros E. unfold bind. now rewrite E. Qed.

Lemma bind_raise {A B} (m : M A) (k : A -> M B) (tr tr' : trace) (e : exn) :
  m tr = (Raise e, tr') -> bind m k tr = (Raise e, tr').
Proof. intros E. unfold bind. now rewrite E. Qed.

Lemma lift_run {A} (r : result A) (tr : trace) : lift r tr = (r, tr).
Proof. reflexivity. Qed.

Lemma print_run (line : pystr) (tr : trace) :
  print line tr = (Return tt, tr ++ [Stdout line]).
Proof. reflexivity. Qed.

Lemma outcome_run {A} (m : M A) (tr : trace) (r : result A) :
  outcome m tr = r -> m tr = (r, effects m tr).
Proof. unfold outcome, effects. intros <-. now destruct (m tr). Qed.

(** One step of a computation whose first action returns. *)
Ltac step :=
  erewrite bind_return;
  [| first [ apply print_run
           | rewrite lift_run; f_equal; eassumption
           | eassumption
           | reflexivity ] ].

Section GraderFacts.
Context `{Collaborators}.

Lemma check_objective_metrics_returns (self : AIPaperGrader) (text : pystr) (tr : trace) :
  metrics_available self text ->
  exists r n,
    _check_objective_metrics self text tr
    = (Return (VDict [("word_count" : pystr, VInt (Z.of_nat (length (split isspace text))));
                      ("readability_score_flesch" : pystr, VFloat r);
                      ("grammar_and_spelling_errors" : pystr, VInt (Z.of_nat n))]),
       tr)
    /\ (lang_tool self = None -> n = 0).
Proof.
  intros [[r Hr] Htool]. unfold _check_objective_metrics.
  destruct (lang_tool self) as [tool|] eqn:Etool.
  - destruct (Htool tool eq_refl) as [matches Hm].
    exists r, (length matches). split; [|discriminate].
    unfold bind, lift, ret. now rewrite Hr, Hm.
  - exists r, 0. split; [|reflexivity].
    unfold bind, lift, ret. now rewrite Hr.
Qed.

(** The request of [_evaluate_with_llm] never completes: when the agent
    has answered, the lookup of [self.client] raises. *)
Lemma evaluate_request_raises (self : AIPaperGrader)
    (assignment_prompt rubric_str student_paper user_prompt : pystr) (tr : trace) :
  let agent_prompt :=
    grading_prompt (str_mul " " 24) (str_mul " " 16)
                   assignment_prompt rubric_str student_paper in
  evaluate_request self assignment_prompt rubric_str student_paper user_prompt tr
  = (Raise match generate_response (agent self) (system_prompt (agent self)) agent_prompt with
           | Raise e => e
           | Return _ => AttributeError "client"
           end,
     tr ++ [AgentRequest (agent self) (system_prompt (agent self)) agent_prompt]).
Proof.
  intros agent_prompt. unfold evaluate_request. fold agent_prompt.
  unfold bind, emit, lift, undefined_attribute, raise.
  now destruct (generate_response _ _ _).
Qed.

Lemma evaluate_with_llm_run (self : AIPaperGrader)
    (assignment_prompt : pystr) (rubric : value) (student_paper : pystr) (tr : trace) :
  let agent_prompt :=
    grading_prompt (str_mul " " 24) (str_mul " " 16)
                   assignment_prompt (json_dumps rubric) student_paper in
  _evaluate_with_llm self assignment_prompt rubric student_paper tr
  = (Return degraded_evaluation,
     tr ++ [AgentRequest (agent self) (system_prompt (agent self)) agent_prompt;
            Stdout ("An error occurred during LLM evaluation: "
                    ++ str_exn match generate_response (agent self)
                                       (system_prompt (agent self)) agent_prompt with
                               | Raise e => e
                               | Return _ => AttributeError "client"
                               end)]).
Proof.
  intros agent_prompt. unfold _evaluate_with_llm, try_except.
  rewrite evaluate_request_raises. fold agent_prompt.
  unfold bind, print, emit, ret. now rewrite <- app_assoc.
Qed.

Lemma evaluate_with_llm_degraded (self : AIPaperGrader)
    (assignment_prompt : pystr) (rubric : value) (student_paper : pystr) :
  evaluates_to (_evaluate_with_llm self) assignment_prompt rubric student_paper
               degraded_evaluation.
Proof. intros tr. unfold outcome. now rewrite evaluate_with_llm_run. Qed.

(** The report [grade_paper] compiles when both steps answer and both
    sums are defined. *)
Lemma grade_paper_with_report (evaluate : pystr -> value -> pystr -> M value)
    (self : AIPaperGrader) (assignment_prompt : pystr) (rubric : value)
    (student_paper : pystr) (evaluation breakdown total criteria max_total : value)
    (tr : trace) :
  metrics_available self student_paper ->
  evaluates_to evaluate assignment_prompt rubric student_paper evaluation ->
  get evaluation "criteria_breakdown" (VList []) = Return breakdown ->
  sum_get "score" breakdown = Return total ->
  get rubric "criteria" (VList []) = Return criteria ->
  sum_get "max_score" criteria = Return max_total ->
  exists r n summary copied,
    outcome (grade_paper_with evaluate self assignment_prompt rubric student_paper) tr
    = Return (VDict [("overall_score" : pystr, total);
                     ("max_possible_score" : pystr, max_total);
                     ("summary_feedback" : pystr, summary);
                     ("criteria_breakdown" : pystr, copied);
                     ("objective_metrics" : pystr,
                      VDict [("word_count" : pystr,
                              VInt (Z.of_nat (length (split isspace student_paper))));
                             ("readability_score_flesch" : pystr, VFloat r);
                             ("grammar_and_spelling_errors" : pystr,
                              VInt (Z.of_nat n))])])
    /\ get evaluation "summary_feedback" VNone = Return summary
    /\ get evaluation "criteria_breakdown" VNone = Return copied
    /\ (lang_tool self = None -> n = 0).
Proof.
  intros Hm Hev Hbd Htotal Hcrit Hmax.
  destruct (get_total evaluation "summary_feedback" VNone
              (get_is_dict _ _ _ Hbd)) as [summary Hs].
  destruct (get_total evaluation "criteria_breakdown" VNone
              (get_is_dict _ _ _ Hbd)) as [copied Hc].
  destruct (check_objective_metrics_returns
              (tr ++ [Stdout "1. Analyzing objective metrics..."]) Hm)
    as (r & n & Hrun & Hn).
  exists r, n, summary, copied. repeat split; try assumption.
  unfold outcome, grade_paper_with.
  step. step. step.
  erewrite bind_return by (apply outcome_run, Hev).
  do 4 step. step. step. step.
  reflexivity.
Qed.
End GraderFacts.

(** ** Printing *)

Arguments lit : simpl never.

Section PrintFacts.
Context `{Collaborators}.






End PrintFacts.

(** ** Reports *)

Lemma bind_inv {A B} (m : M A) (k : A -> M B) (tr tr' : trace) (b : B) :
  bind m k tr = (Return b, tr') ->
  exists a tr1, m tr = (Return a, tr1) /\ k a tr1 = (Return b, tr').
Proof.
  unfold bind. destruct (m tr) as [[a|e] tr1]; [eauto | discriminate].
Qed.

Lemma lift_inv {A} (r : result A) (tr tr' : trace) (a : A) :
  lift r tr = (Return a, tr') -> r = Return a.
Proof. unfold lift. now intros [= -> _]. Qed.


Section ReportFacts.
Context `{Collaborators}.

(** Every report of [grade_paper] is assembled from an answer of the
    evaluation step, the two sums and the objective metrics. *)
Lemma grade_paper_with_inv (evaluate : pystr -> value -> pystr -> M value)
    (self : AIPaperGrader) (assignment_prompt : pystr) (rubric : value)
    (student_paper : pystr) (tr : trace) (report : value) :
  outcome (grade_paper_with evaluate self assignment_prompt rubric student_paper) tr
  = Return report ->
  exists tr1 evaluation breakdown total criteria max_total summary copied metrics,
    outcome (evaluate assignment_prompt rubric student_paper) tr1 = Return evaluation
    /\ get evaluation "criteria_breakdown" (VList []) = Return breakdown
    /\ sum_get "score" breakdown = Return total
    /\ get rubric "criteria" (VList []) = Return criteria
    /\ sum_get "max_score" criteria = Return max_total
    /\ get evaluation "summary_feedback" VNone = Return summary
    /\ get evaluation "criteria_breakdown" VNone = Return copied
    /\ report = VDict [("overall_score" : pystr, total);
                       ("max_possible_score" : pystr, max_total);
                       ("summary_feedback" : pystr, summary);
                       ("criteria_breakdown" : pystr, copied);
                       ("objective_metrics" : pystr, metrics)].
Proof.
  intros Hrun. apply outcome_run in Hrun. unfold grade_paper_with in Hrun.
  apply bind_inv in Hrun as (? & tr0 & _ & Hrun).
  apply bind_inv in Hrun as (metrics & ? & _ & Hrun).
  apply bind_inv in Hrun as (? & tr1 & _ & Hrun).
  apply bind_inv in Hrun as (evaluation & ? & Hev & Hrun).
  apply bind_inv in Hrun as (breakdown & ? & Hbd%lift_inv & Hrun).
  apply bind_inv in Hrun as (total & ? & Htotal%lift_inv & Hrun).
  apply bind_inv in Hrun as (criteria & ? & Hcrit%lift_inv & Hrun).
  apply bind_inv in Hrun as (max_total & ? & Hmax%lift_inv & Hrun).
  apply bind_inv in Hrun as (? & ? & _ & Hrun).
  apply bind_inv in Hrun as (summary & ? & Hs%lift_inv & Hrun).
  apply bind_inv in Hrun as (copied & ? & Hc%lift_inv & Hrun).
  injection Hrun as <- _.
  exists tr1, evaluation, breakdown, total, criteria, max_total, summary, copied, metrics.
  repeat split; try assumption.
  unfold outcome. now rewrite Hev.
Qed.

(** With the method of the class as evaluation step, the report is
    always the one of the degraded evaluation. *)
Corollary grade_paper_degraded (self : AIPaperGrader) (assignment_prompt : pystr)
    (rubric : value) (criteria : list value) (student_paper : pystr) (tr : trace) :
  metrics_available self student_paper ->
  get rubric "criteria" (VList []) = Return (VList criteria) ->
  forallb (int_or_absent "max_score") criteria = true ->
  exists metrics,
    outcome (grade_paper self assignment_prompt rubric student_paper) tr
    = Return (VDict [("overall_score" : pystr, VInt 0);
                     ("max_possible_score" : pystr,
                      VInt (field_total "max_score" criteria));
                     ("summary_feedback" : pystr,
                      VStr "Error: Could not get evaluation from the AI model.");
                     ("criteria_breakdown" : pystr, VList []);
                     ("objective_metrics" : pystr, metrics)]).
Proof.
  intros Hm Hcrit Hints.
  destruct (@grade_paper_with_report _ (_evaluate_with_llm self) self assignment_prompt
              rubric student_paper degraded_evaluation (VList []) (VInt 0)
              (VList criteria) (VInt (field_total "max_score" criteria)) tr Hm
              (evaluate_with_llm_degraded self assignment_prompt rubric student_paper)
              eq_refl eq_refl Hcrit (sum_get_ints _ _ Hints))
    as (r & n & summary & copied & Hrun & Hs & Hc & _).
  injection Hs as <-. injection Hc as <-.
  eexists. exact Hrun.
Qed.
End ReportFacts.

(** * The claims of the specification *)

(** ** RubricEvaluator *)

(** C1 (defect): the transport succeeds and returns valid JSON, yet
    [_evaluate_with_llm] does not return the parsed object.  With
    collaborators that all answer (the agent returns [sample_answer_text],
    which [json.loads] parses to [sample_answer]), the call returns the
    degraded evaluation: after the agent has answered, [self.client] raises
    [AttributeError], so the request with [temperature=0.2] and the JSON
    response format is never sent and the answer is never parsed. *)
Theorem evaluate_with_llm_discards_answer :
  let run :=
    @_evaluate_with_llm healthy sample_grader "Write an essay." GRADING_RUBRIC
                        "Technology matters." [] in
  (forall a system user, @generate_response healthy a system user = Return sample_answer_text)
  /\ @json_loads healthy sample_answer_text = Return sample_answer
  /\ fst run = Return degraded_evaluation
  /\ degraded_evaluation <> sample_answer
  /\ (exists a system user,
        snd run = [AgentRequest a system user;
                   Stdout ("An error occurred during LLM evaluation: "
                           ++ @str_exn healthy (AttributeError "client"))])
  /\ (forall r, ~ In (ChatCompletionRequest r) (snd run)).
Proof.
  intros run. subst run. rewrite evaluate_with_llm_run. simpl fst; simpl snd.
  split; [reflexivity|].
  split; [vm_compute; reflexivity|].
  split; [reflexivity|].
  split; [intros E; vm_compute in E; discriminate|].
  split; [do 3 eexists; reflexivity|].
  intros r [E|[E|[]]]; discriminate.
Qed.

Section EvaluatorClaims.
Context `{Collaborators}.

(** C4: whenever the guarded block of [_evaluate_with_llm] raises, for
    whatever reason (an error of the transport, a missing attribute, text
    that is not JSON), the method prints the error and returns the
    degraded evaluation: [summary_feedback] is the error sentence and
    [criteria_breakdown] is the empty list.  No exception escapes. *)
Theorem evaluate_with_llm_failure (self : AIPaperGrader)
    (assignment_prompt : pystr) (rubric : value) (student_paper : pystr)
    (e : exn) (tr tr' : trace) :
  evaluate_request self assignment_prompt (json_dumps rubric) student_paper
    (grading_prompt (str_mul " " 8) (str_mul " " 8)
                    assignment_prompt (json_dumps rubric) student_paper) tr
  = (Raise e, tr') ->
  _evaluate_with_llm self assignment_prompt rubric student_paper tr
  = (Return degraded_evaluation,
     tr' ++ [Stdout ("An error occurred during LLM evaluation: " ++ str_exn e)])
  /\ getitem degraded_evaluation "summary_feedback"
     = Return (VStr "Error: Could not get evaluation from the AI model.")
  /\ getitem degraded_evaluation "criteria_breakdown" = Return (VList []).
Proof.
  intros Hbody. split; [|split; reflexivity].
  unfold _evaluate_with_llm, try_except. rewrite Hbody. reflexivity.
Qed.
End EvaluatorClaims.

Lemma evaluate_with_llm_failure_witness :
  @evaluate_request offline sample_grader "Write an essay."
    (@json_dumps offline GRADING_RUBRIC) "Technology matters."
    (grading_prompt (str_mul " " 8) (str_mul " " 8) "Write an essay."
                    (@json_dumps offline GRADING_RUBRIC) "Technology matters.") []
  = (Raise (CollaboratorError "connection refused"),
     [AgentRequest (agent sample_grader) grader_system_prompt
        (grading_prompt (str_mul " " 24) (str_mul " " 16) "Write an essay."
                        (@json_dumps offline GRADING_RUBRIC) "Technology matters.")])
  /\ fst (@_evaluate_with_llm offline sample_grader "Write an essay." GRADING_RUBRIC
                              "Technology matters." [])
     = Return degraded_evaluation.
Proof.
  split; [reflexivity|].
  rewrite (proj1 (@evaluate_with_llm_failure offline sample_grader "Write an essay."
                    GRADING_RUBRIC "Technology matters." _ [] _ eq_refl)).
  reflexivity.
Defined.

(** ** MetricsAnalyzer *)

Section MetricsClaims.
Context `{Collaborators}.

(** C8: when the grammar tool cannot be started, [__init__] prints the
    failure instead of raising and leaves [lang_tool] unset; on the grader
    so built, [_check_objective_metrics] reports 0 grammar and spelling
    errors for every text the readability library answers for. *)
Theorem grammar_errors_without_tool (model : pystr) (e : exn) (tr : trace) :
  LanguageTool_new "en-US" = Raise e ->
  exists self,
    __init__ model tr
    = (Return self,
       tr ++ [Stdout ("Could not initialize language tool. Grammar checks will be skipped. Error: "
                      ++ str_exn e)])
    /\ lang_tool self = None
    /\ forall (text : pystr) (tr' : trace),
         (exists r, flesch_reading_ease text = Return r) ->
         exists metrics,
           outcome (_check_objective_metrics self text) tr' = Return metrics
           /\ getitem metrics "grammar_and_spelling_errors" = Return (VInt 0).
Proof.
  intros Hnew.
  set (self := {| agent := {| agent_model := model;
                              system_prompt := grader_system_prompt;
                              provider := "openai" |};
                  lang_tool := None |}).
  exists self. split; [|split].
  - unfold __init__, try_except, bind, lift, print, emit, ret.
    rewrite Hnew. reflexivity.
  - reflexivity.
  - intros text tr' Hr.
    destruct (@check_objective_metrics_returns _ self text tr')
      as (r & n & Hrun & Hn).
    { split; [exact Hr | discriminate]. }
    rewrite (Hn eq_refl) in Hrun.
    eexists. split.
    + unfold outcome. rewrite Hrun. reflexivity.
    + reflexivity.
Qed.

(** C9: the word count [_check_objective_metrics] reports is the number
    of whitespace-delimited tokens of the text; the text "a b  c" has 3. *)
Theorem word_count_is_token_count (self : AIPaperGrader) (text : pystr) (tr : trace) :
  metrics_available self text ->
  (exists metrics,
     outcome (_check_objective_metrics self text) tr = Return metrics
     /\ getitem metrics "word_count"
        = Return (VInt (Z.of_nat (count_tokens isspace text))))
  /\ count_tokens isspace ("a b  c" : pystr) = 3.
Proof.
  intros Hm. split; [|reflexivity].
  destruct (check_objective_metrics_returns tr Hm) as (r & n & Hrun & _).
  eexists. split.
  - unfold outcome. rewrite Hrun. reflexivity.
  - rewrite <- split_length. reflexivity.
Qed.
End MetricsClaims.

Lemma grammar_errors_without_tool_witness :
  @LanguageTool_new offline "en-US" = Raise (CollaboratorError "no Java runtime")
  /\ exists self,
       fst (@__init__ offline default_model []) = Return self
       /\ lang_tool self = None
       /\ exists metrics,
            outcome (@_check_objective_metrics offline self "a b  c") [] = Return metrics
            /\ getitem metrics "grammar_and_spelling_errors" = Return (VInt 0).
Proof.
  split; [reflexivity|].
  destruct (@grammar_errors_without_tool offline default_model _ [] eq_refl)
    as (self & Hinit & Hnone & Hmetrics).
  exists self. split; [now rewrite Hinit|]. split; [exact Hnone|].
  apply Hmetrics. eexists; reflexivity.
Defined.

Lemma word_count_is_token_count_witness :
  @metrics_available healthy sample_grader "a b  c"
  /\ exists metrics,
       outcome (@_check_objective_metrics healthy sample_grader "a b  c") [] = Return metrics
       /\ getitem metrics "word_count" = Return (VInt 3).
Proof.
  assert (Hm : @metrics_available healthy sample_grader "a b  c").
  { split; [eexists; reflexivity | discriminate]. }
  split; [exact Hm|].
  exact (proj1 (@word_count_is_token_count healthy sample_grader "a b  c" [] Hm)).
Defined.

(** ** GradeCompiler *)

Section CompilerClaims.
Context `{Collaborators}.
Variable evaluate : pystr -> value -> pystr -> M value.

(** C2: for a rubric whose criteria carry integer maximum scores, every
    report [grade_paper] produces has [max_possible_score] equal to the sum
    of [max_score] over the criteria of the rubric, whatever the evaluation
    step answered; and a report is produced for every evaluation whose
    scores can be summed, whatever the length of its breakdown. *)
Theorem max_possible_score_from_rubric (self : AIPaperGrader)
    (assignment_prompt : pystr) (rubric : value) (criteria : list value)
    (student_paper : pystr) (tr : trace) :
  get rubric "criteria" (VList []) = Return (VList criteria) ->
  forallb (int_or_absent "max_score") criteria = true ->
  (forall report,
      outcome (grade_paper_with evaluate self assignment_prompt rubric student_paper) tr
      = Return report ->
      getitem report "max_possible_score"
      = Return (VInt (field_total "max_score" criteria)))
  /\ (forall evaluation breakdown total,
        metrics_available self student_paper ->
        evaluates_to evaluate assignment_prompt rubric student_paper evaluation ->
        get evaluation "criteria_breakdown" (VList []) = Return breakdown ->
        sum_get "score" breakdown = Return total ->
        exists report,
          outcome (grade_paper_with evaluate self assignment_prompt rubric student_paper) tr
          = Return report).
Proof.
  intros Hcrit Hints. split.
  - intros report Hrun.
    apply grade_paper_with_inv in Hrun
      as (tr1 & ev & bd & total & crit & mx & summary & copied & metrics
          & _ & _ & _ & Hcrit' & Hmax & _ & _ & ->).
    rewrite Hcrit in Hcrit'. injection Hcrit' as <-.
    rewrite (sum_get_ints _ _ Hints) in Hmax. injection Hmax as <-.
    reflexivity.
  - intros evaluation breakdown total Hm Hev Hbd Htotal.
    destruct (grade_paper_with_report tr Hm Hev Hbd Htotal Hcrit
                (sum_get_ints _ _ Hints))
      as (r & n & summary & copied & Hrun & _).
    eexists. exact Hrun.
Qed.

(** C5: when the breakdown of the evaluation is a list of entries whose
    [score] is an int or is missing, the report [grade_paper] produces has
    [overall_score] equal to the sum of [score] over the entries, an entry
    without [score] counting for 0. *)
Theorem overall_score_from_breakdown (self : AIPaperGrader)
    (assignment_prompt : pystr) (rubric : value) (student_paper : pystr)
    (evaluation : value) (entries : list value) (criteria max_total : value)
    (tr : trace) :
  metrics_available self student_paper ->
  evaluates_to evaluate assignment_prompt rubric student_paper evaluation ->
  get evaluation "criteria_breakdown" (VList []) = Return (VList entries) ->
  forallb (int_or_absent "score") entries = true ->
  get rubric "criteria" (VList []) = Return criteria ->
  sum_get "max_score" criteria = Return max_total ->
  (exists report,
     outcome (grade_paper_with evaluate self assignment_prompt rubric student_paper) tr
     = Return report
     /\ getitem report "overall_score" = Return (VInt (field_total "score" entries)))
  /\ (forall entry, has_key "score" entry = false -> int_field "score" entry = 0%Z).
Proof.
  intros Hm Hev Hbd Hints Hcrit Hmax. split.
  - destruct (grade_paper_with_report tr Hm Hev Hbd (sum_get_ints _ _ Hints) Hcrit Hmax)
      as (r & n & summary & copied & Hrun & _).
    eexists. split; [exact Hrun | reflexivity].
  - intros [| | | | | |d]; simpl; try reflexivity.
    now destruct (lookup "score" d).
Qed.



End CompilerClaims.

Lemma sample_metrics_available (text : pystr) :
  @metrics_available healthy sample_grader text.
Proof. split; [eexists; reflexivity | discriminate]. Defined.

Lemma max_possible_score_from_rubric_witness :
  get GRADING_RUBRIC "criteria" (VList [])
  = Return (VList [criterion_entry "Argument and Analysis" 40
                     "Evaluates the clarity, depth, and coherence of the argument. Assesses discussion of both advantages and disadvantages.";
                   criterion_entry "Use of Evidence" 30
                     "Checks if the student provided specific, relevant examples for both advantages and disadvantages as required.";
                   criterion_entry "Structure and Organization" 20
                     "Assesses the logical flow of the essay, including introduction, body paragraphs, and conclusion.";
                   criterion_entry "Clarity and Mechanics" 10
                     "Evaluates grammar, spelling, punctuation, and overall readability. Adherence to word count."])
  /\ exists report,
       outcome (@grade_paper_with healthy (answering excessive_evaluation) sample_grader
                                  "Write an essay." GRADING_RUBRIC "a b  c") []
       = Return report
       /\ getitem report "max_possible_score" = Return (VInt 100).
Proof.
  split; [reflexivity|].
  pose proof (@max_possible_score_from_rubric healthy (answering excessive_evaluation)
                sample_grader "Write an essay." GRADING_RUBRIC _ "a b  c" []
                eq_refl eq_refl) as [Hfield Hreport].
  destruct (Hreport excessive_evaluation _ (VInt 50) (sample_metrics_available _)
              (fun _ => eq_refl) eq_refl eq_refl) as [report Hrun].
  exists report. split; [exact Hrun|].
  exact (Hfield report Hrun).
Defined.

Lemma overall_score_from_breakdown_witness :
  forallb (int_or_absent "score")
          [result_entry "Argument and Analysis" 35 40 "Clear.";
           VDict [("criterion" : pystr, VStr "Use of Evidence");
                  ("feedback" : pystr, VStr "Not assessed.")]] = true
  /\ exists report,
       outcome (@grade_paper_with healthy (answering partial_evaluation) sample_grader
                                  "Write an essay." GRADING_RUBRIC "a b  c") []
       = Return report
       /\ getitem report "overall_score" = Return (VInt 35).
Proof.
  split; [reflexivity|].
  exact (proj1 (@overall_score_from_breakdown healthy (answering partial_evaluation)
                  sample_grader "Write an essay." GRADING_RUBRIC "a b  c"
                  partial_evaluation _ _ (VInt 100) []
                  (sample_metrics_available _) (fun _ => eq_refl)
                  eq_refl eq_refl eq_refl eq_refl)).
Defined.





(** ** ReportPresenter *)

Section PresenterClaims.
Context `{Collaborators}.

End PresenterClaims.


(** * Further properties of the code *)

(** ** Evaluation and compilation *)

Lemma sum_get_from_app (key : pystr) (good rest : list value) (acc : Z) :
  forallb (int_or_absent key) good = true ->
  sum_get_from (VInt acc) key (good ++ rest)
  = sum_get_from (VInt (acc + field_total key good)) key rest.
Proof.
  revert acc; induction good as [|item good IH]; intros acc Hall; simpl.
  - unfold field_total; simpl. now rewrite Z.add_0_r.
  - simpl in Hall. apply andb_true_iff in Hall as [Hitem Hgood].
    unfold field_total in *; simpl.
    destruct item; simpl in Hitem; try discriminate.
    simpl. destruct (lookup key entries) as [[]|]; try discriminate; simpl;
      rewrite IH by assumption; f_equal; f_equal; lia.
Qed.

Section CompilerFacts.
Context `{Collaborators}.
Variable evaluate : pystr -> value -> pystr -> M value.

(** The complete run of [grade_paper] when both steps answer and both
    sums are defined. *)
Lemma grade_paper_with_run (self : AIPaperGrader) (assignment_prompt : pystr)
    (rubric : value) (student_paper : pystr)
    (evaluation breakdown total criteria max_total : value) (tr tr2 : trace) :
  metrics_available self student_paper ->
  evaluate assignment_prompt rubric student_paper
           ((tr ++ [Stdout "1. Analyzing objective metrics..."])
            ++ [Stdout "2. Performing subjective evaluation with AI..."])
  = (Return evaluation, tr2) ->
  get evaluation "criteria_breakdown" (VList []) = Return breakdown ->
  sum_get "score" breakdown = Return total ->
  get rubric "criteria" (VList []) = Return criteria ->
  sum_get "max_score" criteria = Return max_total ->
  exists r n summary copied,
    grade_paper_with evaluate self assignment_prompt rubric student_paper tr
    = (Return (VDict [("overall_score" : pystr, total);
                      ("max_possible_score" : pystr, max_total);
                      ("summary_feedback" : pystr, summary);
                      ("criteria_breakdown" : pystr, copied);
                      ("objective_metrics" : pystr,
                       VDict [("word_count" : pystr,
                               VInt (Z.of_nat (length (split isspace student_paper))));
                              ("readability_score_flesch" : pystr, VFloat r);
                              ("grammar_and_spelling_errors" : pystr,
                               VInt (Z.of_nat n))])]),
       tr2 ++ [Stdout "3. Compiling final report..."])
    /\ get evaluation "summary_feedback" VNone = Return summary
    /\ get evaluation "criteria_breakdown" VNone = Return copied.
Proof.
  intros Hm Hev Hbd Htotal Hcrit Hmax.
  destruct (get_total evaluation "summary_feedback" VNone
              (get_is_dict _ _ _ Hbd)) as [summary Hs].
  destruct (get_total evaluation "criteria_breakdown" VNone
              (get_is_dict _ _ _ Hbd)) as [copied Hc].
  destruct (check_objective_metrics_returns
              (tr ++ [Stdout "1. Analyzing objective metrics..."]) Hm)
    as (r & n & Hrun & Hn).
  exists r, n, summary, copied. repeat split; try assumption.
  unfold grade_paper_with.
  step. step. step.
  erewrite bind_return by exact Hev.
  do 4 step. step. step. step.
  reflexivity.
Qed.

Lemma check_metrics_readability_failure (self : AIPaperGrader) (text : pystr)
    (e : exn) (tr : trace) :
  flesch_reading_ease text = Raise e ->
  _check_objective_metrics self text tr = (Raise e, tr).
Proof. intros Hr. unfold _check_objective_metrics, bind, lift. now rewrite Hr. Qed.

(** X5: a failure of the readability library is not recovered.
    [_check_objective_metrics] raises the same exception without printing,
    and [grade_paper] raises it after its first progress line: the
    evaluation step is not run and no report is compiled. *)
Theorem readability_failure_propagates (self : AIPaperGrader)
    (assignment_prompt : pystr) (rubric : value) (student_paper : pystr)
    (e : exn) (tr : trace) :
  flesch_reading_ease student_paper = Raise e ->
  _check_objective_metrics self student_paper tr = (Raise e, tr)
  /\ grade_paper_with evaluate self assignment_prompt rubric student_paper tr
     = (Raise e, tr ++ [Stdout "1. Analyzing objective metrics..."]).
Proof.
  intros Hr.
  split; [exact (check_metrics_readability_failure self student_paper tr Hr)|].
  unfold grade_paper_with. step.
  erewrite bind_raise
    by exact (check_metrics_readability_failure self student_paper _ Hr).
  reflexivity.
Qed.

(** X6: a failure of the grammar tool on the text is not recovered either
    (only its start is guarded, in [__init__]): [grade_paper] raises the
    exception of [check] after its first progress line. *)
Theorem grammar_check_failure_propagates (self : AIPaperGrader)
    (assignment_prompt : pystr) (rubric : value) (student_paper : pystr)
    (tool : LanguageTool) (r : spec_float) (e : exn) (tr : trace) :
  lang_tool self = Some tool ->
  flesch_reading_ease student_paper = Return r ->
  LanguageTool_check tool student_paper = Raise e ->
  grade_paper_with evaluate self assignment_prompt rubric student_paper tr
  = (Raise e, tr ++ [Stdout "1. Analyzing objective metrics..."]).
Proof.
  intros Htool Hr Hcheck.
  unfold grade_paper_with. step.
  erewrite bind_raise; [reflexivity|].
  unfold _check_objective_metrics, bind, lift. now rewrite Hr, Htool, Hcheck.
Qed.

(** X7: when the evaluation step answers something that is not a dict (a
    JSON list, string or number), [grade_paper] raises [AttributeError] at
    [llm_results.get], right after the evaluation: nothing more is printed
    and no report is compiled. *)
Theorem evaluation_not_a_dict (self : AIPaperGrader)
    (assignment_prompt : pystr) (rubric : value) (student_paper : pystr)
    (evaluation : value) (tr tr2 : trace) :
  metrics_available self student_paper ->
  evaluate assignment_prompt rubric student_paper
           ((tr ++ [Stdout "1. Analyzing objective metrics..."])
            ++ [Stdout "2. Performing subjective evaluation with AI..."])
  = (Return evaluation, tr2) ->
  is_dict evaluation = false ->
  grade_paper_with evaluate self assignment_prompt rubric student_paper tr
  = (Raise (AttributeError "get"), tr2).
Proof.
  intros Hm Hev Hnd.
  destruct (check_objective_metrics_returns
              (tr ++ [Stdout "1. Analyzing objective metrics..."]) Hm)
    as (r & n & Hrun & _).
  assert (Hget : get evaluation "criteria_breakdown" (VList [])
                 = Raise (AttributeError "get")).
  { destruct evaluation; try reflexivity; discriminate. }
  unfold grade_paper_with. step. step. step.
  erewrite bind_return by exact Hev.
  erewrite bind_raise by (rewrite lift_run, Hget; reflexivity).
  reflexivity.
Qed.

(** X8: a score that is not a number makes the whole grading fail.  When
    the entries before it are well formed and the entry [bad] holds a
    string, a list, a dict or [None] under [score], [grade_paper] raises
    [TypeError] right after the evaluation and compiles no report. *)
Theorem non_numeric_score_raises (self : AIPaperGrader)
    (assignment_prompt : pystr) (rubric : value) (student_paper : pystr)
    (evaluation bad score : value) (good rest : list value) (tr tr2 : trace) :
  metrics_available self student_paper ->
  evaluate assignment_prompt rubric student_paper
           ((tr ++ [Stdout "1. Analyzing objective metrics..."])
            ++ [Stdout "2. Performing subjective evaluation with AI..."])
  = (Return evaluation, tr2) ->
  get evaluation "criteria_breakdown" (VList []) = Return (VList (good ++ bad :: rest)) ->
  forallb (int_or_absent "score") good = true ->
  getitem bad "score" = Return score ->
  non_numeric score = true ->
  grade_paper_with evaluate self assignment_prompt rubric student_paper tr
  = (Raise TypeError, tr2).
Proof.
  intros Hm Hev Hbd Hgood Hscore Hnn.
  destruct (check_objective_metrics_returns
              (tr ++ [Stdout "1. Analyzing objective metrics..."]) Hm)
    as (r & n & Hrun & _).
  assert (Hsum : sum_get "score" (VList (good ++ bad :: rest)) = Raise TypeError).
  { unfold sum_get; simpl. rewrite sum_get_from_app by assumption. simpl.
    rewrite (get_of_getitem _ _ (VInt 0) Hscore).
    destruct score; try discriminate; reflexivity. }
  unfold grade_paper_with. step. step. step.
  erewrite bind_return by exact Hev.
  step.
  erewrite bind_raise by (rewrite lift_run, Hsum; reflexivity).
  reflexivity.
Qed.
End CompilerFacts.

Section EvaluatorFacts.
Context `{Collaborators}.


Lemma grade_paper_run (self : AIPaperGrader)
    (assignment_prompt : pystr) (rubric criteria max_total : value)
    (student_paper : pystr) (tr : trace) :
  metrics_available self student_paper ->
  get rubric "criteria" (VList []) = Return criteria ->
  sum_get "max_score" criteria = Return max_total ->
  exists r n request error_line,
    grade_paper self assignment_prompt rubric student_paper tr
    = (Return (VDict [("overall_score" : pystr, VInt 0);
                      ("max_possible_score" : pystr, max_total);
                      ("summary_feedback" : pystr,
                       VStr "Error: Could not get evaluation from the AI model.");
                      ("criteria_breakdown" : pystr, VList []);
                      ("objective_metrics" : pystr,
                       VDict [("word_count" : pystr,
                               VInt (Z.of_nat (length (split isspace student_paper))));
                              ("readability_score_flesch" : pystr, VFloat r);
                              ("grammar_and_spelling_errors" : pystr,
                               VInt (Z.of_nat n))])]),
       tr ++ [Stdout "1. Analyzing objective metrics...";
              Stdout "2. Performing subjective evaluation with AI...";
              AgentRequest (agent self) (system_prompt (agent self)) request;
              Stdout error_line;
              Stdout "3. Compiling final report..."]).
Proof.
  intros Hm Hcrit Hmax.
  destruct (@grade_paper_with_run _ (_evaluate_with_llm self) self assignment_prompt
              rubric student_paper degraded_evaluation (VList []) (VInt 0)
              criteria max_total tr _ Hm
              (evaluate_with_llm_run self assignment_prompt rubric student_paper _)
              eq_refl eq_refl Hcrit Hmax)
    as (r & n & summary & copied & Hrun & Hs & Hc).
  injection Hs as <-. injection Hc as <-.
  exists r, n. do 2 eexists. unfold grade_paper. rewrite Hrun. f_equal.
  rewrite <- !app_assoc. reflexivity.
Qed.

End EvaluatorFacts.

Section DefaultFacts.
Context `{Collaborators}.
Variable evaluate : pystr -> value -> pystr -> M value.


(** X10: a rubric without [criteria] is graded against a maximum of 0:
    [rubric.get('criteria', [])] falls back to the empty list. *)
Theorem rubric_without_criteria (self : AIPaperGrader)
    (assignment_prompt : pystr) (rubric_fields : list (pystr * value))
    (student_paper : pystr) (evaluation breakdown total : value) (tr : trace) :
  metrics_available self student_paper ->
  evaluates_to evaluate assignment_prompt (VDict rubric_fields) student_paper evaluation ->
  get evaluation "criteria_breakdown" (VList []) = Return breakdown ->
  sum_get "score" breakdown = Return total ->
  lookup "criteria" rubric_fields = None ->
  exists report,
    outcome (grade_paper_with evaluate self assignment_prompt (VDict rubric_fields)
                              student_paper) tr
    = Return report
    /\ getitem report "max_possible_score" = Return (VInt 0)
    /\ getitem report "overall_score" = Return total.
Proof.
  intros Hm Hev Hbd Htotal Hmissing.
  assert (Hcrit : get (VDict rubric_fields) "criteria" (VList []) = Return (VList [])).
  { rewrite get_dict, Hmissing. reflexivity. }
  destruct (@grade_paper_with_report _ evaluate self assignment_prompt
              (VDict rubric_fields) student_paper evaluation breakdown total
              (VList []) (VInt 0) tr Hm Hev Hbd Htotal Hcrit eq_refl)
    as (r & n & summary & copied & Hrun & _).
  eexists. split; [exact Hrun|]. split; reflexivity.
Qed.
End DefaultFacts.

(** ** Construction and metrics *)

Section MetricsFacts.
Context `{Collaborators}.

(** X3: [__init__] returns a grader whatever the grammar tool does.  A
    tool that starts is stored and nothing is printed; a tool that fails
    leaves [lang_tool] at [None] and one line is printed. *)
Theorem init_returns (model : pystr) (tr : trace) :
  exists self,
    outcome (__init__ model) tr = Return self
    /\ agent self = {| agent_model := model;
                       system_prompt := grader_system_prompt;
                       provider := "openai" |}
    /\ match LanguageTool_new "en-US" with
       | Return tool =>
           lang_tool self = Some tool /\ effects (__init__ model) tr = tr
       | Raise e =>
           lang_tool self = None
           /\ effects (__init__ model) tr
              = tr ++ [Stdout ("Could not initialize language tool. Grammar checks will be skipped. Error: "
                               ++ str_exn e)]
       end.
Proof.
  unfold outcome, effects, __init__, try_except, bind, lift, print, emit, ret.
  destruct (LanguageTool_new "en-US") as [tool|e]; simpl;
    eexists; repeat split; reflexivity.
Qed.

End MetricsFacts.

(** ** Printing the report *)

Lemma runs_print (line : pystr) (tr : trace) :
  runs (print line) tr (Return tt) [Stdout line].
Proof. reflexivity. Qed.

Lemma runs_lift {A} (r : result A) (tr : trace) : runs (lift r) tr r [].
Proof. unfold runs, lift. now rewrite app_nil_r. Qed.

Lemma runs_lift_return {A} (r : result A) (a : A) (tr : trace) :
  r = Return a -> runs (lift r) tr (Return a) [].
Proof. intros ->. apply runs_lift. Qed.


Lemma runs_bind {A B} (m : M A) (k : A -> M B) (tr : trace) (a : A)
    (out1 out2 : trace) (r : result B) :
  runs m tr (Return a) out1 ->
  runs (k a) (tr ++ out1) r out2 ->
  runs (bind m k) tr r (out1 ++ out2).
Proof.
  unfold runs, bind. intros -> ->. now rewrite app_assoc.
Qed.

Lemma runs_bind_raise {A B} (m : M A) (k : A -> M B) (tr : trace) (e : exn)
    (out : trace) :
  runs m tr (Raise e) out -> runs (bind m k) tr (Raise e) out.
Proof. unfold runs, bind. now intros ->. Qed.

Lemma quiet_print (line : pystr) : quiet (print line).
Proof. intros tr. exists (Return tt), [Stdout line]. split; reflexivity. Qed.

Lemma quiet_lift {A} (r : result A) : quiet (lift r).
Proof. intros tr. exists r, []. split; [apply runs_lift | reflexivity]. Qed.

Lemma quiet_ret {A} (a : A) : quiet (ret a).
Proof. apply (quiet_lift (Return a)). Qed.

Lemma quiet_bind {A B} (m : M A) (k : A -> M B) :
  quiet m -> (forall a, quiet (k a)) -> quiet (bind m k).
Proof.
  intros Hm Hk tr. destruct (Hm tr) as (r & out1 & Hrun & Hout1).
  destruct r as [a|e].
  - destruct (Hk a (tr ++ out1)) as (r' & out2 & Hrun' & Hout2).
    exists r', (out1 ++ out2). split.
    + eapply runs_bind; eassumption.
    + now rewrite forallb_app, Hout1, Hout2.
  - exists (Raise e), out1. split; [now apply runs_bind_raise | assumption].
Qed.

Lemma quiet_for_each {A} (items : list A) (body : A -> M unit) :
  (forall item, quiet (body item)) -> quiet (for_each items body).
Proof.
  intros Hbody. induction items as [|item rest IH].
  - apply quiet_ret.
  - apply quiet_bind; [apply Hbody | intros _; exact IH].
Qed.

Ltac quiet_steps :=
  repeat first [ apply quiet_print | apply quiet_lift | apply quiet_ret
               | apply quiet_bind; [|intros ?] ].

Section PresenterFacts.
Context `{Collaborators}.

Lemma quiet_print_criterion (item : value) : quiet (print_criterion item).
Proof. unfold print_criterion. quiet_steps. Qed.

(** An entry with the four keys is printed on three lines. *)
Lemma print_criterion_run (item : value) (tr : trace) :
  has_printed_keys item = true ->
  exists out,
    runs (print_criterion item) tr (Return tt) out
    /\ forallb is_stdout out = true /\ length out = 3.
Proof.
  destruct item as [| | | | | |d]; try discriminate.
  unfold has_printed_keys, printed_keys, forallb, has_key.
  destruct (lookup "criterion" d) as [c|] eqn:Hc; [|discriminate].
  destruct (lookup "score" d) as [s|] eqn:Hs; [|discriminate].
  destruct (lookup "max_score" d) as [m|] eqn:Hm; [|discriminate].
  destruct (lookup "feedback" d) as [f|] eqn:Hf; [|discriminate].
  intros _. eexists. split; [|split].
  - unfold print_criterion.
    eapply runs_bind; [apply runs_lift_return; simpl; rewrite Hc; reflexivity|].
    eapply runs_bind; [apply runs_print|].
    eapply runs_bind; [apply runs_lift_return; simpl; rewrite Hs; reflexivity|].
    eapply runs_bind; [apply runs_lift_return; simpl; rewrite Hm; reflexivity|].
    eapply runs_bind; [apply runs_print|].
    eapply runs_bind; [apply runs_lift_return; simpl; rewrite Hf; reflexivity|].
    apply runs_print.
  - reflexivity.
  - reflexivity.
Qed.

Lemma print_breakdown_run (items : list value) (tr : trace) :
  forallb has_printed_keys items = true ->
  exists out,
    runs (for_each items print_criterion) tr (Return tt) out
    /\ forallb is_stdout out = true /\ length out = 3 * length items.
Proof.
  revert tr; induction items as [|item rest IH]; intros tr Hall.
  - exists []. split; [apply (runs_lift (Return tt)) | split; reflexivity].
  - simpl in Hall. apply andb_true_iff in Hall as [Hitem Hrest].
    destruct (print_criterion_run item tr Hitem) as (out1 & Hrun1 & Hout1 & Hlen1).
    destruct (IH (tr ++ out1) Hrest) as (out2 & Hrun2 & Hout2 & Hlen2).
    exists (out1 ++ out2). split; [|split].
    + change (for_each (item :: rest) print_criterion)
        with (bind (print_criterion item) (fun _ => for_each rest print_criterion)).
      eapply runs_bind; eassumption.
    + now rewrite forallb_app, Hout1, Hout2.
    + rewrite length_app, Hlen1, Hlen2. simpl. lia.
Qed.

Lemma format_2f_returns (v : value) :
  formats_as_float v = true -> exists text, format_2f v = Return text.
Proof.
  destruct v as [|b|z|f| | |]; simpl; try discriminate; eauto.
  - destruct b; vm_compute; eauto.
  - destruct (float_of_int z); [eauto | discriminate].
Qed.

(** The run of [print_report] up to the objective metrics. *)
Lemma print_report_head (fields : list (pystr * value)) (os mp : value)
    (items : list value) (tr : trace) (rest : list (pystr * value) -> M unit) :
  lookup "overall_score" fields = Some os ->
  lookup "max_possible_score" fields = Some mp ->
  get (VDict fields) "criteria_breakdown" (VList []) = Return (VList items) ->
  forallb has_printed_keys items = true ->
  exists out,
    forallb is_stdout out = true
    /\ length out = 10 + 3 * length items
    /\ nth_error out 3
       = Some (Stdout ("FINAL SCORE: " ++ py_str os ++ " / " ++ py_str mp ++ newline))
    /\ nth_error out 5
       = Some (Stdout (py_str match lookup "summary_feedback" fields with
                              | Some summary => summary
                              | None => VStr "N/A"
                              end))
    /\ forall metrics_value (k : value -> M unit) r out',
         get (VDict fields) "objective_metrics" (VDict []) = Return metrics_value ->
         runs (k metrics_value) (tr ++ out) r out' ->
         runs (print (newline ++ str_mul "=" 50) ;;
               print (str_mul " " 15 ++ "AI GRADING REPORT") ;;
               print (str_mul "=" 50 ++ newline) ;;
               overall_score <- lift (getitem (VDict fields) "overall_score") ;;
               max_possible_score <- lift (getitem (VDict fields) "max_possible_score") ;;
               print ("FINAL SCORE: " ++ py_str overall_score ++ " / "
                      ++ py_str max_possible_score ++ newline) ;;
               print "--- Overall Summary ---" ;;
               summary <- lift (get (VDict fields) "summary_feedback" (VStr "N/A")) ;;
               print (py_str summary) ;;
               print (newline ++ str_mul "-" 25 ++ newline) ;;
               print "--- Detailed Breakdown by Criterion ---" ;;
               breakdown <- lift (get (VDict fields) "criteria_breakdown" (VList [])) ;;
               items <- lift (iter breakdown) ;;
               for_each items print_criterion ;;
               print (newline ++ str_mul "-" 25 ++ newline) ;;
               print "--- Objective Metrics ---" ;;
               metrics <- lift (get (VDict fields) "objective_metrics" (VDict [])) ;;
               k metrics)
              tr r (out ++ out').
Proof.
  intros Hos Hmp Hbd Hkeys.
  destruct (print_breakdown_run items
              (tr ++ [Stdout (newline ++ str_mul "=" 50);
                      Stdout (str_mul " " 15 ++ "AI GRADING REPORT");
                      Stdout (str_mul "=" 50 ++ newline);
                      Stdout ("FINAL SCORE: " ++ py_str os ++ " / " ++ py_str mp ++ newline);
                      Stdout "--- Overall Summary ---";
                      Stdout (py_str match lookup "summary_feedback" fields with
                                     | Some summary => summary
                                     | None => VStr "N/A"
                                     end);
                      Stdout (newline ++ str_mul "-" 25 ++ newline);
                      Stdout "--- Detailed Breakdown by Criterion ---"]) Hkeys)
    as (loop & Hloop & Hquiet & Hlen).
  exists ([Stdout (newline ++ str_mul "=" 50);
           Stdout (str_mul " " 15 ++ "AI GRADING REPORT");
           Stdout (str_mul "=" 50 ++ newline);
           Stdout ("FINAL SCORE: " ++ py_str os ++ " / " ++ py_str mp ++ newline);
           Stdout "--- Overall Summary ---";
           Stdout (py_str match lookup "summary_feedback" fields with
                          | Some summary => summary
                          | None => VStr "N/A"
                          end);
           Stdout (newline ++ str_mul "-" 25 ++ newline);
           Stdout "--- Detailed Breakdown by Criterion ---"]
          ++ loop
          ++ [Stdout (newline ++ str_mul "-" 25 ++ newline);
              Stdout "--- Objective Metrics ---"]).
  split; [|split; [|split; [|split]]].
  - rewrite !forallb_app, Hquiet. reflexivity.
  - rewrite !length_app, Hlen. simpl. lia.
  - reflexivity.
  - reflexivity.
  - intros metrics_value k r out' Hmetrics Hk.
    unfold runs in *. do 3 step.
    erewrite bind_return by (rewrite lift_run; unfold getitem; rewrite Hos; reflexivity).
    erewrite bind_return by (rewrite lift_run; unfold getitem; rewrite Hmp; reflexivity).
    do 2 step.
    erewrite bind_return by (rewrite lift_run, get_dict; reflexivity).
    do 3 step.
    erewrite bind_return by (rewrite lift_run, Hbd; reflexivity).
    erewrite bind_return by (rewrite lift_run; reflexivity).
    repeat rewrite <- app_assoc. simpl app.
    erewrite bind_return by exact Hloop.
    do 2 step.
    erewrite bind_return by (rewrite lift_run, Hmetrics; reflexivity).
    repeat rewrite <- app_assoc in *. simpl app in *. exact Hk.
Qed.
End PresenterFacts.

Section PresenterExtras.
Context `{Collaborators}.

(** The last block of [print_report], on metrics whose readability can be
    formatted. *)
Lemma print_metrics_run (metrics : list (pystr * value)) (rd : value) (tr : trace) :
  lookup "readability_score_flesch" metrics = Some rd ->
  formats_as_float rd = true ->
  exists out,
    runs (word_count <- lift (get (VDict metrics) "word_count" VNone) ;;
          print ("  Word Count: " ++ py_str word_count) ;;
          readability <- lift (get (VDict metrics) "readability_score_flesch" VNone) ;;
          readability_text <- lift (format_2f readability) ;;
          print ("  Flesch Reading Ease: " ++ readability_text
                 ++ " (Higher is easier to read)") ;;
          grammar <- lift (get (VDict metrics) "grammar_and_spelling_errors" VNone) ;;
          print ("  Grammar & Spelling Issues Found: " ++ py_str grammar) ;;
          print (newline ++ str_mul "=" 50))
         tr (Return tt) out
    /\ forallb is_stdout out = true /\ length out = 4
    /\ nth_error out 3 = Some (Stdout (newline ++ str_mul "=" 50)).
Proof.
  intros Hrd Hfmt. destruct (format_2f_returns rd Hfmt) as [text Htext].
  eexists. split; [|split; [|split]].
  - eapply runs_bind; [apply runs_lift_return; rewrite get_dict; reflexivity|].
    eapply runs_bind; [apply runs_print|].
    eapply runs_bind; [apply runs_lift_return; rewrite get_dict, Hrd; reflexivity|].
    eapply runs_bind; [apply runs_lift_return; exact Htext|].
    eapply runs_bind; [apply runs_print|].
    eapply runs_bind; [apply runs_lift_return; rewrite get_dict; reflexivity|].
    eapply runs_bind; [apply runs_print|].
    apply runs_print.
  - reflexivity.
  - reflexivity.
  - reflexivity.
Qed.

Lemma print_report_run (fields : list (pystr * value)) (os mp : value)
    (items : list value) (metrics : list (pystr * value)) (rd : value) (tr : trace) :
  lookup "overall_score" fields = Some os ->
  lookup "max_possible_score" fields = Some mp ->
  get (VDict fields) "criteria_breakdown" (VList []) = Return (VList items) ->
  forallb has_printed_keys items = true ->
  get (VDict fields) "objective_metrics" (VDict []) = Return (VDict metrics) ->
  lookup "readability_score_flesch" metrics = Some rd ->
  formats_as_float rd = true ->
  exists out,
    runs (print_report (VDict fields)) tr (Return tt) out
    /\ forallb is_stdout out = true
    /\ length out = 14 + 3 * length items
    /\ nth_error out 3
       = Some (Stdout ("FINAL SCORE: " ++ py_str os ++ " / " ++ py_str mp ++ newline))
    /\ nth_error out 5
       = Some (Stdout (py_str match lookup "summary_feedback" fields with
                              | Some summary => summary
                              | None => VStr "N/A"
                              end)).
Proof.
  intros Hos Hmp Hbd Hkeys Hmetrics Hrd Hfmt.
  destruct (print_report_head fields tr (fun _ => ret tt) Hos Hmp Hbd Hkeys)
    as (head & Hquiet & Hlen & Hscore & Hsummary & Hrun).
  destruct (print_metrics_run metrics (tr ++ head) Hrd Hfmt)
    as (tail & Htail & Hquiet' & Hlen' & _).
  exists (head ++ tail). split; [|split; [|split; [|split]]].
  - unfold print_report. eapply Hrun; [exact Hmetrics | exact Htail].
  - now rewrite forallb_app, Hquiet, Hquiet'.
  - rewrite length_app, Hlen, Hlen'. lia.
  - rewrite nth_error_app1 by (rewrite Hlen; lia). exact Hscore.
  - rewrite nth_error_app1 by (rewrite Hlen; lia). exact Hsummary.
Qed.



(** X13: [print_report] only prints.  On every report, well formed or
    not, it starts with the three lines of the banner and appends nothing
    but printed lines to the trace, whether it returns or raises. *)
Theorem print_report_only_prints (report : value) (tr : trace) :
  exists r out,
    print_report report tr
    = (r, tr ++ [Stdout (newline ++ str_mul "=" 50);
                 Stdout (str_mul " " 15 ++ "AI GRADING REPORT");
                 Stdout (str_mul "=" 50 ++ newline)] ++ out)
    /\ forallb is_stdout out = true.
Proof.
  unfold print_report.
  match goal with
  | |- exists r out, bind _ (fun _ => bind _ (fun _ => bind _ (fun _ => ?rest))) _ = _ /\ _ =>
      assert (Hrest : quiet rest)
  end.
  { repeat first [ apply quiet_print | apply quiet_lift
                 | apply quiet_for_each; intros ?; apply quiet_print_criterion
                 | apply quiet_bind; [|intros ?] ]. }
  destruct (Hrest (((tr ++ [Stdout (newline ++ str_mul "=" 50)])
                    ++ [Stdout (str_mul " " 15 ++ "AI GRADING REPORT")])
                   ++ [Stdout (str_mul "=" 50 ++ newline)]))
    as (r & out & Hrun & Hquiet).
  exists r, out. split; [|exact Hquiet].
  do 3 step. unfold runs in Hrun. rewrite Hrun. f_equal.
  now rewrite <- !app_assoc.
Qed.

End PresenterExtras.

(** ** Word count *)

Section SplitExtras.
Context {char : Type} (sep : char -> bool).

Lemma token_starts_app (a b : list char) (c : char) (after_sep : bool) :
  sep c = true ->
  token_starts sep after_sep (a ++ c :: b)
  = token_starts sep after_sep a + token_starts sep true b.
Proof.
  intros Hc. revert after_sep; induction a as [|x a IH]; intros after_sep; simpl.
  - now rewrite Hc.
  - destruct (sep x); rewrite IH; lia.
Qed.

(** X15: the words of two texts joined by a separator are the words of
    the one and the words of the other: [len((a + c + b).split())] is
    [len(a.split()) + len(b.split())] for a whitespace character [c]. *)
Theorem word_count_additive (a b : list char) (c : char) :
  sep c = true ->
  length (split sep (a ++ c :: b)) = length (split sep a) + length (split sep b).
Proof.
  intros Hc. rewrite !split_length. unfold count_tokens.
  now apply token_starts_app.
Qed.

Lemma filter_nonsep_nil (s : list char) :
  filter (fun c => negb (sep c)) s = [] <-> forallb sep s = true.
Proof.
  induction s as [|c rest IH]; simpl; [tauto|].
  destruct (sep c); simpl; [exact IH|]. split; discriminate.
Qed.

(** X16: a text has no word exactly when it consists of separators only;
    in particular the empty text has none. *)
Theorem no_words_iff_blank (s : list char) :
  length (split sep s) = 0 <-> forallb sep s = true.
Proof.
  rewrite <- filter_nonsep_nil, <- split_concat. split.
  - intros Hlen. apply length_zero_iff_nil in Hlen. now rewrite Hlen.
  - intros Hconcat. pose proof (split_words sep s) as Hwords.
    destruct (split sep s) as [|w ws]; [reflexivity|].
    inversion Hwords as [|? ? [Hw _] _]; subst.
    simpl in Hconcat. apply app_eq_nil in Hconcat as [Hnil _]. contradiction.
Qed.
End SplitExtras.

(** ** The entry point *)

Section EntryPointFacts.
Context `{Collaborators}.

Lemma init_run (model : pystr) (tr : trace) :
  __init__ model tr
  = (Return {| agent := {| agent_model := model;
                           system_prompt := grader_system_prompt;
                           provider := "openai" |};
               lang_tool := match LanguageTool_new "en-US" with
                            | Return tool => Some tool
                            | Raise _ => None
                            end |},
     tr ++ init_output).
Proof.
  unfold __init__, init_output, try_except, bind, lift, print, emit, ret.
  destruct (LanguageTool_new "en-US"); simpl; [now rewrite app_nil_r | reflexivity].
Qed.

(** X17: the entry point never raises: whatever the collaborators do,
    the run ends normally, an exception of the pipeline being printed by
    one of the two handlers. *)
Theorem main_never_raises (tr : trace) : outcome main tr = Return tt.
Proof.
  unfold outcome, main, try_except.
  match goal with |- fst (match ?body tr with _ => _ end) = _ =>
    destruct (body tr) as [[[]|e] tr'] end.
  - reflexivity.
  - destruct (is_ValueError e); reflexivity.
Qed.

(** X18: when the readability library and the grammar tool (if it
    started) answer for the sample paper, the entry point prints a complete
    report, and that report is the degraded one: after the progress lines
    and the single request to the agent come 14 lines, with final score 0
    out of 100 and the error sentence as summary. *)
Theorem main_prints_degraded_report (tr : trace) :
  (exists score, flesch_reading_ease STUDENT_PAPER = Return score) ->
  (forall tool, LanguageTool_new "en-US" = Return tool ->
                exists matches, LanguageTool_check tool STUDENT_PAPER = Return matches) ->
  exists request error_line report_lines,
    main tr
    = (Return tt,
       tr ++ init_output
          ++ [Stdout "1. Analyzing objective metrics...";
              Stdout "2. Performing subjective evaluation with AI...";
              AgentRequest {| agent_model := default_model;
                              system_prompt := grader_system_prompt;
                              provider := "openai" |}
                           grader_system_prompt request;
              Stdout error_line;
              Stdout "3. Compiling final report..."]
          ++ report_lines)
    /\ forallb is_stdout report_lines = true
    /\ length report_lines = 14
    /\ nth_error report_lines 3
       = Some (Stdout ("FINAL SCORE: " ++ py_str (VInt 0) ++ " / " ++ py_str (VInt 100)
                       ++ newline))
    /\ nth_error report_lines 5
       = Some (Stdout "Error: Could not get evaluation from the AI model.").
Proof.
  intros Hscore Hcheck.
  set (self := {| agent := {| agent_model := default_model;
                              system_prompt := grader_system_prompt;
                              provider := "openai" |};
                  lang_tool := match LanguageTool_new "en-US" with
                               | Return tool => Some tool
                               | Raise _ => None
                               end |}).
  assert (Hm : metrics_available self STUDENT_PAPER).
  { split; [exact Hscore|]. intros tool Htool. apply Hcheck.
    simpl in Htool. destruct (LanguageTool_new "en-US"); now inversion Htool. }
  destruct (@grade_paper_run _ self ASSIGNMENT_PROMPT GRADING_RUBRIC _ (VInt 100)
              STUDENT_PAPER (tr ++ init_output) Hm eq_refl eq_refl)
    as (r & n & request & error_line & Hgrade).
  match type of Hgrade with _ = (Return (VDict ?fields), ?tr2) =>
    destruct (@print_report_run _ fields (VInt 0) (VInt 100) [] _ (VFloat r) tr2
                eq_refl eq_refl eq_refl eq_refl eq_refl eq_refl eq_refl)
      as (lines & Hprint & Hquiet & Hlen & Hfinal & Hsummary)
  end.
  exists request, error_line, lines.
  split; [|repeat split; assumption].
  unfold main, try_except.
  erewrite bind_return by apply init_run.
  fold self. erewrite bind_return by exact Hgrade.
  unfold runs in Hprint. rewrite Hprint. f_equal.
  now rewrite <- !app_assoc.
Qed.

(** X19: when the readability library fails on the sample paper, the
    entry point prints no report.  After the first progress line it prints
    the exception, bare for a [ValueError] and after "An unexpected error
    occurred: " otherwise, and ends normally; the agent is not contacted. *)
Theorem main_reports_metrics_failure (e : exn) (tr : trace) :
  flesch_reading_ease STUDENT_PAPER = Raise e ->
  main tr
  = (Return tt,
     tr ++ init_output
        ++ [Stdout "1. Analyzing objective metrics...";
            Stdout (if is_ValueError e
                    then str_exn e
                    else "An unexpected error occurred: " ++ str_exn e)]).
Proof.
  intros Hr. unfold main, try_except.
  erewrite bind_return by apply init_run.
  unfold grade_paper, grade_paper_with.
  erewrite bind_raise.
  2:{ step.
      erewrite bind_raise
        by exact (check_metrics_readability_failure _ STUDENT_PAPER _ Hr).
      reflexivity. }
  destruct (is_ValueError e); unfold print, emit; f_equal;
    now rewrite <- !app_assoc.
Qed.
End EntryPointFacts.

(** ** Instances *)



Lemma readability_failure_propagates_witness :
  @flesch_reading_ease unreadable "a b  c" = Raise (CollaboratorError "division by zero")
  /\ @grade_paper_with unreadable (answering sample_evaluation) sample_grader
                       "Write an essay." GRADING_RUBRIC "a b  c" []
     = (Raise (CollaboratorError "division by zero"),
        [] ++ [Stdout "1. Analyzing objective metrics..."]).
Proof.
  split; [reflexivity|].
  exact (proj2 (@readability_failure_propagates unreadable (answering sample_evaluation)
                  sample_grader "Write an essay." GRADING_RUBRIC "a b  c" _ []
                  eq_refl)).
Defined.

Lemma grammar_check_failure_propagates_witness :
  lang_tool equipped_grader = Some {| language := "en-US" |}
  /\ @flesch_reading_ease flaky "a b  c" = Return float_60
  /\ @LanguageTool_check flaky {| language := "en-US" |} "a b  c"
     = Raise (CollaboratorError "server stopped")
  /\ @grade_paper_with flaky (answering sample_evaluation) equipped_grader
                       "Write an essay." GRADING_RUBRIC "a b  c" []
     = (Raise (CollaboratorError "server stopped"),
        [] ++ [Stdout "1. Analyzing objective metrics..."]).
Proof.
  repeat (split; [reflexivity|]).
  exact (@grammar_check_failure_propagates flaky (answering sample_evaluation)
           equipped_grader "Write an essay." GRADING_RUBRIC "a b  c" _ _ _ []
           eq_refl eq_refl eq_refl).
Defined.

Lemma evaluation_not_a_dict_witness :
  is_dict (VList []) = false
  /\ fst (@grade_paper_with healthy (answering (VList [])) sample_grader
                            "Write an essay." GRADING_RUBRIC "a b  c" [])
     = Raise (AttributeError "get").
Proof.
  split; [reflexivity|].
  rewrite (@evaluation_not_a_dict healthy (answering (VList [])) sample_grader
             "Write an essay." GRADING_RUBRIC "a b  c" (VList []) [] _
             (sample_metrics_available _) eq_refl eq_refl).
  reflexivity.
Defined.

Lemma non_numeric_score_raises_witness :
  getitem (VDict [("criterion" : pystr, VStr "Use of Evidence");
                  ("score" : pystr, VStr "25");
                  ("max_score" : pystr, VInt 30);
                  ("feedback" : pystr, VStr "Examples given.")]) "score"
  = Return (VStr "25")
  /\ non_numeric (VStr "25") = true
  /\ fst (@grade_paper_with healthy (answering quoted_score_evaluation) sample_grader
                            "Write an essay." GRADING_RUBRIC "a b  c" [])
     = Raise TypeError.
Proof.
  split; [reflexivity|]. split; [reflexivity|].
  rewrite (@non_numeric_score_raises healthy (answering quoted_score_evaluation)
             sample_grader "Write an essay." GRADING_RUBRIC "a b  c"
             quoted_score_evaluation _ (VStr "25")
             [result_entry "Argument and Analysis" 35 40 "Clear."]
             [result_entry "Clarity and Mechanics" 9 10 "Few errors."] [] _
             (sample_metrics_available _) eq_refl eq_refl eq_refl eq_refl eq_refl).
  reflexivity.
Defined.


Lemma rubric_without_criteria_witness :
  lookup "criteria" [] = None
  /\ exists report,
       outcome (@grade_paper_with healthy (answering sample_evaluation) sample_grader
                                  "Write an essay." (VDict []) "a b  c") []
       = Return report
       /\ getitem report "max_possible_score" = Return (VInt 0)
       /\ getitem report "overall_score" = Return (VInt 87).
Proof.
  split; [reflexivity|].
  exact (@rubric_without_criteria healthy (answering sample_evaluation) sample_grader
           "Write an essay." [] "a b  c" sample_evaluation _ (VInt 87) []
           (sample_metrics_available _) (fun _ => eq_refl) eq_refl eq_refl eq_refl).
Defined.




Lemma word_count_additive_witness :
  isspace 32%N = true
  /\ length (split isspace (("a b" : pystr) ++ 32%N :: (" c" : pystr)))
     = length (split isspace ("a b" : pystr)) + length (split isspace (" c" : pystr)).
Proof.
  split; [reflexivity|].
  exact (@word_count_additive codepoint isspace "a b" " c" 32%N eq_refl).
Defined.

Lemma main_prints_degraded_report_witness :
  (exists score, @flesch_reading_ease healthy STUDENT_PAPER = Return score)
  /\ exists report_lines,
       length report_lines = 14
       /\ nth_error report_lines 5
          = Some (Stdout "Error: Could not get evaluation from the AI model.")
       /\ exists request error_line,
            @main healthy []
            = (Return tt,
               [] ++ @init_output healthy
                  ++ [Stdout "1. Analyzing objective metrics...";
                      Stdout "2. Performing subjective evaluation with AI...";
                      AgentRequest {| agent_model := default_model;
                                      system_prompt := grader_system_prompt;
                                      provider := "openai" |}
                                   grader_system_prompt request;
                      Stdout error_line;
                      Stdout "3. Compiling final report..."]
                  ++ report_lines).
Proof.
  split; [eexists; reflexivity|].
  destruct (@main_prints_degraded_report healthy []
              (ex_intro _ float_60 eq_refl)
              (fun tool _ => ex_intro _ [] eq_refl))
    as (request & error_line & report_lines & Hrun & _ & Hlen & _ & Hsummary).
  exists report_lines. split; [exact Hlen|]. split; [exact Hsummary|].
  exists request, error_line. exact Hrun.
Defined.

Lemma main_reports_metrics_failure_witness :
  @flesch_reading_ease unreadable STUDENT_PAPER
  = Raise (CollaboratorError "division by zero")
  /\ fst (@main unreadable []) = Return tt
  /\ length (snd (@main unreadable [])) = 2.
Proof.
  split; [reflexivity|].
  rewrite (@main_reports_metrics_failure unreadable _ [] eq_refl).
  split; reflexivity.
Defined.
